(** * Schema extraction over heterogeneous databases: a shallow embedding

    This development embeds [tools/database_utils.py] (the function
    [_build_db_url] and the class [DBSchemaExtractor]) and proves properties
    of its table selection, comment lookup, newline stripping and error
    propagation.

    Conventions of the embedding.
    - Python text is a Rocq [string] of ASCII characters; [lower], [upper],
      [strip] and the case-insensitive regular expression act on the ASCII
      range the way Python does, and leave other characters alone.
    - A value read from a result row is a [cell]: [None] is SQL NULL (Python
      [None]), [Some s] is text.
    - SQLAlchemy and the database server are external.  What the code asks of
      them (reflection, query execution, engine creation, [parse_qsl]) is
      a field of the records [Server] and [Runtime]; each such call may raise.
    - A Python [dict] is an association list in insertion order with
      distinct keys; assignment to a present key keeps its position. *)

From Stdlib Require Import String Ascii List Bool Arith ZArith Lia.
Import ListNotations.
Open Scope string_scope.

(* ------------------------------------------------------------------ *)
(** ** Python primitives used by the source *)

Module Py.

(** Exceptions that the modelled code can raise. [SQLAlchemyError] stands
    for whatever the access layer raises (connection or query failure). *)
Inductive exn : Type :=
| KeyError (key : string)
| IndexError
| SQLAlchemyError (msg : string)
| NullTableName.

Inductive result (A : Type) : Type :=
| Ok (a : A)
| Raise (e : exn).
Arguments Ok {A} a.
Arguments Raise {A} e.

Definition bind {A B : Type} (m : result A) (k : A -> result B) : result B :=
  match m with
  | Ok a => k a
  | Raise e => Raise e
  end.

Definition cell : Type := option string.
Definition Row : Type := list cell.

(** [bool(s)] for a string. *)
Definition truthy (s : string) : bool :=
  match s with
  | EmptyString => false
  | String _ _ => true
  end.

Definition LF : ascii := ascii_of_nat 10.
Definition dquote : string := String (ascii_of_nat 34) EmptyString.

(** [str.isspace] on one ASCII character: TAB, LF, VT, FF, CR, the four
    separators FS, GS, RS, US, and the space. *)
Definition isspace (c : ascii) : bool :=
  let n := nat_of_ascii c in
  (((9 <=? n) && (n <=? 13)) || ((28 <=? n) && (n <=? 32)))%nat.

Definition is_upper (c : ascii) : bool :=
  let n := nat_of_ascii c in ((65 <=? n) && (n <=? 90))%nat.

Definition is_lower (c : ascii) : bool :=
  let n := nat_of_ascii c in ((97 <=? n) && (n <=? 122))%nat.

Definition lower_char (c : ascii) : ascii :=
  if is_upper c then ascii_of_nat (nat_of_ascii c + 32) else c.

Definition upper_char (c : ascii) : ascii :=
  if is_lower c then ascii_of_nat (nat_of_ascii c - 32) else c.

Fixpoint smap (f : ascii -> ascii) (s : string) : string :=
  match s with
  | EmptyString => EmptyString
  | String c s' => String (f c) (smap f s')
  end.

(** [s.lower()] and [s.upper()]. *)
Definition lower (s : string) : string := smap lower_char s.
Definition upper (s : string) : string := smap upper_char s.

(** [s.lstrip()], [s.rstrip()], [s.strip()]. *)
Fixpoint lstrip (s : string) : string :=
  match s with
  | EmptyString => EmptyString
  | String c s' => if isspace c then lstrip s' else s
  end.

Fixpoint rstrip (s : string) : string :=
  match s with
  | EmptyString => EmptyString
  | String c s' =>
      match rstrip s' with
      | EmptyString => if isspace c then EmptyString else String c EmptyString
      | r => String c r
      end
  end.

Definition strip (s : string) : string := rstrip (lstrip s).

(** [s.split(sep)] for a one-character separator: never the empty list. *)
Fixpoint split (sep : ascii) (s : string) : list string :=
  match s with
  | EmptyString => [EmptyString]
  | String c s' =>
      if Ascii.eqb c sep then EmptyString :: split sep s'
      else match split sep s' with
           | h :: t => String c h :: t
           | [] => [String c EmptyString]
           end
  end.

(** [s.replace(old, new)] for a one-character [old]. *)
Fixpoint replace (old : ascii) (new : string) (s : string) : string :=
  match s with
  | EmptyString => EmptyString
  | String c s' =>
      if Ascii.eqb c old then new ++ replace old new s'
      else String c (replace old new s')
  end.

(** [x in xs] for a list of strings. *)
Definition contains (xs : list string) (x : string) : bool :=
  existsb (String.eqb x) xs.

(** [row[i]]. *)
Definition getitem (r : Row) (i : nat) : result cell :=
  match nth_error r i with
  | Some c => Ok c
  | None => Raise IndexError
  end.

(** [v or ''] for a cell. *)
Definition or_empty (v : cell) : string :=
  match v with
  | Some s => s
  | None => EmptyString
  end.

(** Truthiness of a cell: [None] and the empty string are false. *)
Definition cell_truthy (v : cell) : bool :=
  match v with
  | Some s => truthy s
  | None => false
  end.

(** *** Insertion-ordered dictionaries *)

Definition dict (V : Type) : Type := list (string * V).

Fixpoint setitem {V : Type} (k : string) (v : V) (d : dict V) : dict V :=
  match d with
  | [] => [(k, v)]
  | (k', v') :: d' =>
      if String.eqb k' k then (k', v) :: d' else (k', v') :: setitem k v d'
  end.

Definition keys {V : Type} (d : dict V) : list string := map fst d.

Fixpoint get {V : Type} (d : dict V) (k : string) : option V :=
  match d with
  | [] => None
  | (k', v) :: d' => if String.eqb k' k then Some v else get d' k
  end.

(** [dict(pairs)]. *)
Definition dict_of_pairs {V : Type} (ps : list (string * V)) : dict V :=
  fold_left (fun d p => setitem (fst p) (snd p) d) ps [].

(** *** The regular expression [COMMENT='(.*?)'] with [re.IGNORECASE] *)

(** The remainder of [s] after the literal [p], compared without case. *)
Fixpoint skip_prefix_ci (p s : string) : option string :=
  match p, s with
  | EmptyString, _ => Some s
  | String _ _, EmptyString => None
  | String a p', String b s' =>
      if Ascii.eqb (lower_char a) (lower_char b) then skip_prefix_ci p' s'
      else None
  end.

(** [(.*?)'] : the shortest run of characters other than LF that is followed
    by a quote.  The lazy group never takes a quote, and fails on LF. *)
Fixpoint lazy_group (s : string) : option string :=
  match s with
  | EmptyString => None
  | String c s' =>
      if Ascii.eqb c "'"%char then Some EmptyString
      else if Ascii.eqb c LF then None
      else option_map (String c) (lazy_group s')
  end.

Definition match_here (s : string) : option string :=
  match skip_prefix_ci "COMMENT='" s with
  | Some rest => lazy_group rest
  | None => None
  end.

(** [re.search(r"COMMENT='(.*?)'", s, re.IGNORECASE)], giving [group(1)] of
    the leftmost match. *)
Fixpoint re_search_comment (s : string) : option string :=
  match match_here s with
  | Some g => Some g
  | None =>
      match s with
      | EmptyString => None
      | String _ s' => re_search_comment s'
      end
  end.

End Py.

Import Py.

Notation "x <- m ;; k" := (bind m (fun x => k))
  (at level 61, m at next level, right associativity).

(** [[f(x) for x in xs]] where [f] may raise: stops at the first error. *)
Fixpoint mapM {A B : Type} (f : A -> result B) (xs : list A) : result (list B) :=
  match xs with
  | [] => Ok []
  | x :: xs' =>
      y <- f x ;;
      ys <- mapM f xs' ;;
      Ok (y :: ys)
  end.

(* ------------------------------------------------------------------ *)
(** ** The external collaborators *)

(** [sqlalchemy.URL]. *)
Record URL : Type := mkURL {
  drivername : string;
  url_username : string;
  url_password : string;
  url_host : string;
  url_port : Z;
  url_database : string;
  url_query : option (dict string)
}.

(** One column as the inspector reflects it: [column['name']],
    [column.get('comment')] ([None] when the key is absent or null) and
    [str(column['type'])]. *)
Record ReflectedColumn : Type := mkReflected {
  rc_name : string;
  rc_comment : option string;
  rc_type : string
}.

(** A database behind an engine, as a snapshot: what the inspector reflects
    and what [conn.execute(text(q))] yields with [fetchone] and [fetchall]. *)
Record Server : Type := mkServer {
  get_table_names : result (list string);
  get_columns : string -> result (list ReflectedColumn);
  fetchone : string -> result (option Row);
  fetchall : string -> result (list Row)
}.

(** The library calls made at construction: [urllib.parse.parse_qsl] and
    [create_engine] followed by [inspect]. *)
Record Runtime : Type := mkRuntime {
  parse_qsl : string -> list (string * string);
  create_engine : URL -> result Server
}.

(* ------------------------------------------------------------------ *)
(** ** The data model of the result *)

Record ColumnInfo : Type := mkColumn {
  col_name : cell;
  col_comment : string;
  col_type : cell
}.

Record TableSchema : Type := mkSchema {
  table_name : string;
  comment : cell;
  columns : list ColumnInfo
}.

(* ------------------------------------------------------------------ *)
(** ** [_build_db_url] *)

Definition drivers : dict string :=
  [ ("mysql", "pymysql");
    ("oracle", "oracledb");
    ("mssql", "pymssql");
    ("postgresql", "psycopg2") ].

(** [d[k]] : raises [KeyError] on a missing key. *)
Definition subscript (d : dict string) (k : string) : result string :=
  match get d k with
  | Some v => Ok v
  | None => Raise (KeyError k)
  end.

Definition _build_db_url (rt : Runtime) (db_type host : string) (port : Z)
    (username password database properties : string) : result URL :=
  let db_type := lower db_type in
  let db_type := if String.eqb db_type "doris" then "mysql" else db_type in
  driver <- subscript drivers db_type ;;
  Ok (mkURL (db_type ++ "+" ++ driver) username password host port database
        (if truthy properties then Some (dict_of_pairs (parse_qsl rt properties))
         else None)).

(* ------------------------------------------------------------------ *)
(** ** [DBSchemaExtractor] *)

Record DBSchemaExtractor : Type := mkExtractor {
  engine_url : URL;
  engine : Server;
  db_type : string;
  username : string
}.

(** [__init__]: the family is stored as it was given. *)
Definition __init__ (rt : Runtime) (db_type host : string) (port : Z)
    (username password database properties : string) : result DBSchemaExtractor :=
  db_url <- _build_db_url rt db_type host port username password database properties ;;
  srv <- create_engine rt db_url ;;
  Ok (mkExtractor db_url srv db_type username).

Section Methods.

Variable self : DBSchemaExtractor.

Definition show_create_query (table_name : string) : string :=
  "SHOW CREATE TABLE " ++ table_name ++ ";".

Definition _get_doris_create_statement (table_name : string) : result string :=
  result <- fetchone (engine self) (show_create_query table_name) ;;
  match result with
  | Some ((_ :: _) as row) =>
      v <- getitem row 1 ;;
      Ok (if cell_truthy v then or_empty v else "")
  | _ => Ok ""
  end.

Definition mysql_comment_query (table_name : string) : string :=
  "SELECT table_comment FROM information_schema.tables WHERE table_name = '"
  ++ table_name ++ "';".

Definition postgresql_comment_query (table_name : string) : string :=
  "SELECT obj_description('" ++ dquote ++ table_name ++ dquote
  ++ "'::regclass, 'pg_class');".

Definition mssql_comment_query (table_name : string) : string :=
  "SELECT cast(EP.value as nvarchar(500)) FROM sys.tables T INNER JOIN sys.extended_properties EP ON T.object_id = EP.major_id WHERE T.name = '"
  ++ table_name ++ "' AND EP.minor_id = 0;".

(** Lines 89-93: run the lookup when a query was chosen. *)
Definition run_comment_query (query table_name : string) : result string :=
  if truthy query then
    result <- fetchone (engine self) query ;;
    match result with
    | Some (v :: _) => Ok (if cell_truthy v then or_empty v else table_name)
    | _ => Ok table_name
    end
  else Ok table_name.

Definition _get_table_comment (table_name : string) : result string :=
  if String.eqb (db_type self) "mysql" then
    run_comment_query (mysql_comment_query table_name) table_name
  else if String.eqb (db_type self) "postgresql" then
    run_comment_query (postgresql_comment_query table_name) table_name
  else if String.eqb (db_type self) "mssql" then
    run_comment_query (mssql_comment_query table_name) table_name
  else if String.eqb (db_type self) "doris" then
    create_stmt <- _get_doris_create_statement table_name ;;
    match re_search_comment create_stmt with
    | Some g => Ok g
    | None => Ok table_name
    end
  else run_comment_query "" table_name.

(** The loop body shared by the doris and oracle routines: one result row
    to one column entry. *)
Definition column_of_row (row : Row) : result ColumnInfo :=
  c0 <- getitem row 0 ;;
  c1 <- getitem row 1 ;;
  c2 <- getitem row 2 ;;
  Ok (mkColumn c0 (replace LF "" (or_empty c2)) c1).

Definition doris_table_query (db_name table_name : string) : string :=
  "SELECT table_comment FROM information_schema.tables WHERE table_schema = '"
  ++ db_name ++ "' AND table_name = '" ++ table_name ++ "';".

Definition doris_col_query (db_name table_name : string) : string :=
  "SELECT column_name, column_type, column_comment FROM information_schema.columns WHERE table_schema = '"
  ++ db_name ++ "' AND table_name = '" ++ table_name ++ "' ORDER BY ordinal_position".

Definition _get_doris_table_schema (table_name : string) : result TableSchema :=
  let db_name := url_database (engine_url self) in
  table_result <- fetchone (engine self) (doris_table_query db_name table_name) ;;
  comment0 <- match table_result with
              | Some ((_ :: _) as row) => getitem row 0
              | _ => Ok (Some "")
              end ;;
  col_results <- fetchall (engine self) (doris_col_query db_name table_name) ;;
  cols <- mapM column_of_row col_results ;;
  Ok (mkSchema table_name comment0 cols).

Definition NL : string := String LF EmptyString.
Definition ind16 : string := "                ".
Definition ind20 : string := "                    ".

Definition oracle_comment_query (username table_name : string) : string :=
  "SELECT COMMENTS FROM ALL_TAB_COMMENTS WHERE OWNER = '" ++ username
  ++ "' AND TABLE_NAME = '" ++ table_name
  ++ "' OR TABLE_NAME = '" ++ upper table_name ++ "'".

Definition oracle_columns_query (username table_name : string) : string :=
  "SELECT" ++ NL
  ++ ind20 ++ "a.COLUMN_NAME column_name," ++ NL
  ++ ind20 ++ "a.DATA_TYPE AS column_type," ++ NL
  ++ ind20 ++ "b.COMMENTS AS column_comment" ++ NL
  ++ ind16 ++ "FROM" ++ NL
  ++ ind20 ++ "ALL_TAB_COLUMNS a" ++ NL
  ++ ind16 ++ "LEFT JOIN" ++ NL
  ++ ind20 ++ "ALL_COL_COMMENTS b ON a.OWNER = b.OWNER" ++ NL
  ++ ind20 ++ "AND a.TABLE_NAME = b.TABLE_NAME" ++ NL
  ++ ind20 ++ "AND a.COLUMN_NAME = b.COLUMN_NAME" ++ NL
  ++ ind16 ++ "WHERE" ++ NL
  ++ ind20 ++ "a.OWNER = '" ++ username ++ "'" ++ NL
  ++ ind20 ++ "AND (a.TABLE_NAME = '" ++ table_name
  ++ "' OR a.TABLE_NAME = '" ++ upper table_name ++ "')" ++ NL
  ++ ind16 ++ "ORDER BY" ++ NL
  ++ ind20 ++ "a.COLUMN_ID".

Definition _get_oracle_table_schema (table_name : string) : result TableSchema :=
  result <- fetchone (engine self) (oracle_comment_query (username self) table_name) ;;
  comment0 <- match result with
              | Some ((_ :: _) as row) => getitem row 0
              | _ => Ok (Some "")
              end ;;
  rows <- fetchall (engine self) (oracle_columns_query (username self) table_name) ;;
  cols <- mapM column_of_row rows ;;
  Ok (mkSchema table_name comment0 cols).

(** The loop body of the generic routine. *)
Definition column_of_reflected (column : ReflectedColumn) : ColumnInfo :=
  mkColumn (Some (rc_name column))
           (replace LF "" (or_empty (rc_comment column)))
           (Some (rc_type column)).

Definition _get_table_schema (table_name : string) : result TableSchema :=
  if String.eqb (db_type self) "oracle" then _get_oracle_table_schema table_name
  else if String.eqb (db_type self) "doris" then _get_doris_table_schema table_name
  else
    c <- _get_table_comment table_name ;;
    cols <- get_columns (engine self) table_name ;;
    Ok (mkSchema table_name (Some c) (map column_of_reflected cols)).

(** [row[0]] of a [SHOW TABLES] row.  The server names every table, so a
    NULL in that column is outside the model and reported as such. *)
Definition first_column (row : Row) : result string :=
  v <- getitem row 0 ;;
  match v with
  | Some s => Ok s
  | None => Raise NullTableName
  end.

(** Lines 42-48: the discovered tables. *)
Definition discover : result (list string) :=
  if String.eqb (db_type self) "doris" then
    rows <- fetchall (engine self) "SHOW TABLES;" ;;
    mapM first_column rows
  else get_table_names (engine self).

(** Lines 50-53: the tables to describe. *)
Definition select_targets (all_table_names : list string)
    (table_names : option string) : list string :=
  match table_names with
  | Some names =>
      if truthy names then
        filter (contains all_table_names) (map strip (split ","%char names))
      else all_table_names
  | None => all_table_names
  end.

(** Lines 55-56: the loop that fills [schemas]. *)
Fixpoint fill_schemas (target_tables : list string) (schemas : dict TableSchema)
    : result (dict TableSchema) :=
  match target_tables with
  | [] => Ok schemas
  | table :: rest =>
      s <- _get_table_schema table ;;
      fill_schemas rest (setitem table s schemas)
  end.

Definition get_all_tables_schema (table_names : option string)
    : result (dict TableSchema) :=
  all_table_names <- discover ;;
  fill_schemas (select_targets all_table_names table_names) [].

End Methods.

(* ------------------------------------------------------------------ *)
(** ** Reference notions used in the statements *)

(** The distinct elements of a list, each at its first occurrence: the key
    order of a dictionary filled by successive assignments. *)
Fixpoint first_occurrences (xs : list string) : list string :=
  match xs with
  | [] => []
  | x :: r => x :: filter (fun y => negb (String.eqb y x)) (first_occurrences r)
  end.

(** The filter entries that name a discovered table: split on commas,
    trimmed, kept when discovered, in the filter's order. *)
Definition filter_entries (discovered : list string) (names : string) : list string :=
  filter (fun t => contains discovered t) (map strip (split ","%char names)).

(** [s] has no character satisfying [p]. *)
Fixpoint string_forallb (p : ascii -> bool) (s : string) : bool :=
  match s with
  | EmptyString => true
  | String c s' => p c && string_forallb p s'
  end.

(** [sep.join(xs)] for a one-character separator. *)
Fixpoint join (sep : ascii) (xs : list string) : string :=
  match xs with
  | [] => EmptyString
  | [x] => x
  | x :: r => x ++ String sep (join sep r)
  end.

(** The family-specific lookup query of the generic path. *)
Definition lookup_query (family table_name : string) : string :=
  if String.eqb family "mysql" then mysql_comment_query table_name
  else if String.eqb family "postgresql" then postgresql_comment_query table_name
  else mssql_comment_query table_name.

(** Characters the lazy group can take: anything but the quote that ends
    it and LF, which the dot does not match. *)
Definition plain (c : ascii) : bool :=
  negb (Ascii.eqb c "'"%char) && negb (Ascii.eqb c LF).

(** [s] holds a match of the pattern that starts right after [pre] and
    captures [g]: the keyword in any letter case, an equals sign, a quote,
    the captured run, a quote. *)
Definition matches_after (pre s g : string) : Prop :=
  exists kw post,
    s = pre ++ kw ++ g ++ "'" ++ post
    /\ lower kw = "comment='"
    /\ string_forallb plain g = true.

(** [g] is captured by the leftmost match in [s]. *)
Definition first_match (s g : string) : Prop :=
  exists pre,
    matches_after pre s g
    /\ forall pre' g',
         String.length pre' < String.length pre -> ~ matches_after pre' s g'.

Definition no_match (s : string) : Prop :=
  forall pre g, ~ matches_after pre s g.

(** A text with every LF character taken out. *)
Definition without_newlines (s : string) : string :=
  string_of_list_ascii
    (filter (fun c => negb (Ascii.eqb c LF)) (list_ascii_of_string s)).

Definition no_newline (s : string) : Prop :=
  string_forallb (fun c => negb (Ascii.eqb c LF)) s = true.

(** The third value of a result row, when there is one. *)
Definition third (row : Row) : cell := nth 2 row None.

(** The five supported families. *)
Definition supported_families : list string :=
  ["mysql"; "postgresql"; "oracle"; "mssql"; "doris"].

(** A family string is supported when its lowercase spelling is listed. *)
Definition supported (family : string) : Prop :=
  In (lower family) supported_families.

(* ------------------------------------------------------------------ *)
(** ** The WHERE clause of the oracle comment query, as SQL reads it *)

(** The query text is all the program holds; how the server reads it is
    SQL: a condition without parentheses is a disjunction of conjunctions
    of comparisons, because AND binds tighter than OR. *)
Module Sql.

Inductive token : Type :=
| TIdent (name : string)
| TEq
| TLit (text : string)
| TAnd
| TOr.

Record comparison : Type := mkComparison {
  column : string;
  literal : string
}.

Definition conjunction : Type := list comparison.
Definition condition : Type := list conjunction.

Definition is_and (tk : token) : bool :=
  match tk with TAnd => true | _ => false end.

Definition is_or (tk : token) : bool :=
  match tk with TOr => true | _ => false end.

(** The runs of tokens between separators. *)
Fixpoint split_tokens (sep : token -> bool) (toks : list token)
    : list (list token) :=
  match toks with
  | [] => [[]]
  | tk :: rest =>
      if sep tk then [] :: split_tokens sep rest
      else match split_tokens sep rest with
           | run :: runs => (tk :: run) :: runs
           | [] => [[tk]]
           end
  end.

Fixpoint all_some {A : Type} (xs : list (option A)) : option (list A) :=
  match xs with
  | [] => Some []
  | Some x :: rest => option_map (cons x) (all_some rest)
  | None :: _ => None
  end.

Definition parse_comparison (toks : list token) : option comparison :=
  match toks with
  | [TIdent name; TEq; TLit text] => Some (mkComparison name text)
  | _ => None
  end.

Definition parse_conjunction (toks : list token) : option conjunction :=
  all_some (map parse_comparison (split_tokens is_and toks)).

(** OR is split first, so it binds loosest. *)
Definition parse_condition (toks : list token) : option condition :=
  all_some (map parse_conjunction (split_tokens is_or toks)).

(** Reading the text into tokens.  Blanks separate; a quote opens a text
    literal that runs to the next quote, a doubled quote inside it standing
    for one quote; AND and OR are keywords in any letter case, any other
    word is a name. *)
Inductive lex_state : Type :=
| Idle
| InWord (w : string)
| InLit (l : string).

Definition word_token (w : string) : token :=
  if String.eqb (upper w) "AND" then TAnd
  else if String.eqb (upper w) "OR" then TOr
  else TIdent w.

Definition is_quote (c : ascii) : bool := Ascii.eqb c "'"%char.
Definition is_equals (c : ascii) : bool := Ascii.eqb c "="%char.

Fixpoint lex_from (st : lex_state) (s : string) : option (list token) :=
  match s with
  | EmptyString =>
      match st with
      | Idle => Some []
      | InWord w => Some [word_token w]
      | InLit _ => None
      end
  | String c s' =>
      match st with
      | InLit l =>
          if is_quote c then
            match s' with
            | String c2 s'' =>
                if is_quote c2 then lex_from (InLit (l ++ "'")) s''
                else option_map (cons (TLit l)) (lex_from Idle s')
            | EmptyString => Some [TLit l]
            end
          else lex_from (InLit (l ++ String c EmptyString)) s'
      | Idle =>
          if isspace c then lex_from Idle s'
          else if is_equals c then option_map (cons TEq) (lex_from Idle s')
          else if is_quote c then lex_from (InLit EmptyString) s'
          else lex_from (InWord (String c EmptyString)) s'
      | InWord w =>
          if isspace c then option_map (cons (word_token w)) (lex_from Idle s')
          else if is_equals c then
            option_map (fun r => word_token w :: TEq :: r) (lex_from Idle s')
          else if is_quote c then
            option_map (cons (word_token w)) (lex_from (InLit EmptyString) s')
          else lex_from (InWord (w ++ String c EmptyString)) s'
      end
  end.

Definition lex (s : string) : option (list token) := lex_from Idle s.

(** A condition text, read and parsed. *)
Definition read_condition (s : string) : option condition :=
  match lex s with
  | Some toks => parse_condition toks
  | None => None
  end.

(** A catalog row gives a text to each column name. *)
Definition catalog_row : Type := string -> string.

Definition holds (row : catalog_row) (c : comparison) : bool :=
  String.eqb (row (column c)) (literal c).

Definition selects (cond : condition) (row : catalog_row) : bool :=
  existsb (forallb (holds row)) cond.

End Sql.


(** A row of ALL_TAB_COMMENTS. *)
Definition tab_comments_row (owner name : string) : Sql.catalog_row :=
  fun col =>
    if String.eqb col "OWNER" then owner
    else if String.eqb col "TABLE_NAME" then name
    else "".

(** The first value of a result row, as text. *)
Definition first_name (row : Row) : string := or_empty (hd None row).

(** The values of a result row at the positions the column loop reads. *)
Definition value_at (i : nat) (row : Row) : cell := nth i row None.

(* ------------------------------------------------------------------ *)
(** ** Concrete databases used to run the code *)

Module Fixtures.

Definition shop_url : URL :=
  mkURL "postgresql+psycopg2" "app" "secret" "localhost" 5432 "shop" None.

(** A PostgreSQL database with three tables, none commented, no columns. *)
Definition shop_server : Server :=
  mkServer (Ok ["orders"; "customers"; "products"])
           (fun _ => Ok [])
           (fun _ => Ok None)
           (fun _ => Ok []).

Definition shop : DBSchemaExtractor :=
  mkExtractor shop_url shop_server "postgresql" "app".

(** The same database, where reflecting the columns of [customers] fails. *)
Definition broken_server : Server :=
  mkServer (Ok ["orders"; "customers"; "products"])
           (fun t => if String.eqb t "customers"
                     then Raise (SQLAlchemyError "permission denied")
                     else Ok [])
           (fun _ => Ok None)
           (fun _ => Ok []).

Definition broken_shop : DBSchemaExtractor :=
  mkExtractor shop_url broken_server "postgresql" "app".

(** A MySQL database: [accounts] carries a comment, [leads] has a row with
    a null comment, any other table has no row. *)
Definition crm_server : Server :=
  mkServer (Ok ["accounts"; "leads"])
           (fun _ => Ok [mkReflected "id" None "INTEGER"])
           (fun q =>
              if String.eqb q (mysql_comment_query "accounts")
              then Ok (Some [Some "Customer accounts"])
              else if String.eqb q (mysql_comment_query "leads")
              then Ok (Some [None])
              else Ok None)
           (fun _ => Ok []).

Definition crm_url : URL :=
  mkURL "mysql+pymysql" "app" "secret" "localhost" 3306 "crm" None.

Definition crm : DBSchemaExtractor :=
  mkExtractor crm_url crm_server "mysql" "app".

(** The library calls for the CRM: no properties, one reachable server. *)
Definition crm_runtime : Runtime :=
  mkRuntime (fun _ => []) (fun _ => Ok crm_server).

(** A Doris database with one table, whose CREATE statement carries a
    COMMENT clause, whose information-schema row has a null comment and
    whose second column has a two-line comment. *)
Definition sales_create_statement : string :=
  "CREATE TABLE `sales` (`id` INT, `day` DATE) ENGINE=OLAP COMMENT='Sales data' PROPERTIES ('replication_num' = '1')".

Definition warehouse_server : Server :=
  mkServer (Raise (SQLAlchemyError "reflection is not supported"))
           (fun _ => Raise (SQLAlchemyError "reflection is not supported"))
           (fun q =>
              if String.eqb q (show_create_query "sales")
              then Ok (Some [Some "sales"; Some sales_create_statement])
              else if String.eqb q (doris_table_query "warehouse" "sales")
              then Ok (Some [None])
              else Ok None)
           (fun q =>
              if String.eqb q "SHOW TABLES;" then Ok [[Some "sales"]]
              else if String.eqb q (doris_col_query "warehouse" "sales")
              then Ok [ [Some "id"; Some "INT"; None];
                        [Some "day"; Some "DATE";
                         Some ("day of" ++ NL ++ "the sale" ++ NL)] ]
              else Ok []).

Definition warehouse_url : URL :=
  mkURL "mysql+pymysql" "etl" "secret" "doris-fe" 9030 "warehouse" None.

Definition warehouse : DBSchemaExtractor :=
  mkExtractor warehouse_url warehouse_server "doris" "etl".

Definition warehouse_runtime : Runtime :=
  mkRuntime (fun _ => []) (fun _ => Ok warehouse_server).

(** An Oracle schema: the catalog has a row for [EMPLOYEES] with a null
    comment (the table was never commented), and no row for other tables. *)
Definition hr_server : Server :=
  mkServer (Ok ["employees"])
           (fun _ => Ok [])
           (fun q =>
              if String.eqb q (oracle_comment_query "HR" "employees")
              then Ok (Some [None])
              else Ok None)
           (fun q =>
              if String.eqb q (oracle_columns_query "HR" "employees")
              then Ok [ [Some "ID"; Some "NUMBER"; None];
                        [Some "NAME"; Some "VARCHAR2";
                         Some ("full" ++ NL ++ "name")] ]
              else Ok []).

Definition hr_url : URL :=
  mkURL "oracle+oracledb" "HR" "secret" "ora" 1521 "ORCL" None.

Definition hr : DBSchemaExtractor :=
  mkExtractor hr_url hr_server "oracle" "HR".

(** A server that cannot be reached: every call raises. *)
Definition down_server : Server :=
  mkServer (Raise (SQLAlchemyError "connection refused"))
           (fun _ => Raise (SQLAlchemyError "connection refused"))
           (fun _ => Raise (SQLAlchemyError "connection refused"))
           (fun _ => Raise (SQLAlchemyError "connection refused")).

Definition down_crm : DBSchemaExtractor :=
  mkExtractor crm_url down_server "mysql" "app".

Definition down_warehouse : DBSchemaExtractor :=
  mkExtractor warehouse_url down_server "doris" "etl".

(** An SQL Server database whose only table has a comment with a carriage
    return and no line feed. *)
Definition CR : string := String (ascii_of_nat 13) EmptyString.

Definition ledger_server : Server :=
  mkServer (Ok ["entries"])
           (fun _ => Ok [ mkReflected "id" None "INTEGER";
                          mkReflected "memo" (Some ("free" ++ CR ++ "text"))
                            "NVARCHAR(200)" ])
           (fun _ => Ok None)
           (fun _ => Ok []).

Definition ledger : DBSchemaExtractor :=
  mkExtractor (mkURL "mssql+pymssql" "sa" "secret" "sql" 1433 "ledger" None)
              ledger_server "mssql" "sa".

(** A Doris table whose CREATE statement holds a column comment before
    the table comment, both written with an equals sign. *)
Definition annotated_create_statement : string :=
  "CREATE TABLE `sales` (`id` INT COMMENT='row id') ENGINE=OLAP COMMENT='Sales data'".

Definition annotated_server : Server :=
  mkServer (Raise (SQLAlchemyError "reflection is not supported"))
           (fun _ => Raise (SQLAlchemyError "reflection is not supported"))
           (fun q =>
              if String.eqb q (show_create_query "sales")
              then Ok (Some [Some "sales"; Some annotated_create_statement])
              else Ok None)
           (fun _ => Ok []).

Definition annotated : DBSchemaExtractor :=
  mkExtractor warehouse_url annotated_server "doris" "etl".

End Fixtures.

(* ------------------------------------------------------------------ *)
(** ** Facts about the primitives *)

Lemma contains_In (xs : list string) (x : string) :
  contains xs x = true <-> In x xs.
Proof.
  unfold contains. rewrite existsb_exists. split.
  - intros [y [Hin Heq]]. apply String.eqb_eq in Heq. now subst.
  - intros Hin. exists x. split; [assumption | apply String.eqb_refl].
Qed.

Lemma split_not_nil (sep : ascii) (s : string) : split sep s <> [].
Proof.
  induction s as [| c s IH]; simpl; [discriminate |].
  destruct (Ascii.eqb c sep); [discriminate |].
  destruct (split sep s); [contradiction | discriminate].
Qed.

(** Joining the pieces of a split gives the string back. *)
Lemma join_split (sep : ascii) (s : string) : join sep (split sep s) = s.
Proof.
  induction s as [| c s IH]; simpl; [reflexivity |].
  destruct (Ascii.eqb c sep) eqn:E.
  - apply Ascii.eqb_eq in E. subst c.
    destruct (split sep s) as [| h t] eqn:Es.
    + now apply split_not_nil in Es.
    + simpl. now rewrite <- IH.
  - destruct (split sep s) as [| h t] eqn:Es.
    + now apply split_not_nil in Es.
    + destruct t; simpl in *; now rewrite <- IH.
Qed.

(** No piece of a split holds the separator. *)
Lemma split_pieces (sep : ascii) (s piece : string) :
  In piece (split sep s) ->
  string_forallb (fun c => negb (Ascii.eqb c sep)) piece = true.
Proof.
  revert piece. induction s as [| c s IH]; simpl; intros piece Hin.
  - destruct Hin as [<- | []]. reflexivity.
  - destruct (Ascii.eqb c sep) eqn:E.
    + destruct Hin as [<- | Hin]; [reflexivity | now apply IH].
    + destruct (split sep s) as [| h t] eqn:Es.
      * now apply split_not_nil in Es.
      * destruct Hin as [<- | Hin].
        -- simpl. rewrite E. simpl. apply IH. now left.
        -- apply IH. now right.
Qed.

Example split_commas :
  split ","%char " orders , customers,,x " = [" orders "; " customers"; ""; "x "].
Proof. reflexivity. Qed.

Example split_empty : split ","%char "" = [""].
Proof. reflexivity. Qed.

Example strip_blanks : strip "  two words  " = "two words".
Proof. reflexivity. Qed.

(** [lstrip] drops a run of whitespace at the front, and all of it. *)
Lemma lstrip_spec (s : string) :
  exists l,
    s = l ++ lstrip s
    /\ string_forallb isspace l = true
    /\ match lstrip s with
       | String c _ => isspace c = false
       | EmptyString => True
       end.
Proof.
  induction s as [| c s [l [Hs [Hl Hhead]]]]; simpl.
  - now exists "".
  - destruct (isspace c) eqn:E.
    + exists (String c l). simpl. rewrite E, <- Hs. now repeat split.
    + exists "". now repeat split.
Qed.

(** [rstrip] drops a run of whitespace at the back, and all of it. *)
Lemma rstrip_spec (s : string) :
  exists r,
    s = rstrip s ++ r
    /\ string_forallb isspace r = true
    /\ forall body c, rstrip s <> body ++ String c "" \/ isspace c = false.
Proof.
  induction s as [| c s [r [Hs [Hr Hlast]]]]; simpl.
  - exists "". repeat split. intros body ch. left. now destruct body.
  - destruct (rstrip s) as [| c' s'] eqn:E.
    + destruct (isspace c) eqn:Ec.
      * exists (String c r). simpl in Hs. subst s. simpl. rewrite Ec.
        repeat split; [exact Hr |]. intros body ch. left. now destruct body.
      * exists r. simpl in *. subst s. repeat split; [exact Hr |].
        intros body ch. destruct body as [| b body]; simpl.
        -- destruct (ascii_dec c ch) as [<- | Hne]; [now right | left].
           congruence.
        -- left. intros H. injection H as _ H. now destruct body.
    + exists r. simpl in *. rewrite <- Hs. repeat split; [exact Hr |].
      intros body ch. destruct body as [| b body]; simpl.
      * left. discriminate.
      * destruct (Hlast body ch) as [Hne | Hsp]; [left | now right].
        intros H. injection H as _ H. contradiction.
Qed.

Lemma keys_setitem {V : Type} (k : string) (v : V) (d : dict V) :
  keys (setitem k v d) = if contains (keys d) k then keys d else (keys d ++ [k])%list.
Proof.
  induction d as [| [k' v'] d IH]; simpl; [reflexivity |].
  rewrite (String.eqb_sym k k').
  destruct (String.eqb k' k) eqn:E; simpl; [reflexivity |].
  rewrite IH. unfold keys. now destruct (contains (map fst d) k).
Qed.

Lemma get_setitem_same {V : Type} (k : string) (v : V) (d : dict V) :
  get (setitem k v d) k = Some v.
Proof.
  induction d as [| [k' v'] d IH]; simpl.
  - now rewrite String.eqb_refl.
  - destruct (String.eqb k' k) eqn:E; simpl; now rewrite E.
Qed.

Lemma get_setitem_other {V : Type} (k k0 : string) (v : V) (d : dict V) :
  k <> k0 -> get (setitem k v d) k0 = get d k0.
Proof.
  intros Hne. induction d as [| [k' v'] d IH]; simpl.
  - destruct (String.eqb k k0) eqn:E; [| reflexivity].
    apply String.eqb_eq in E. contradiction.
  - destruct (String.eqb k' k) eqn:E; simpl.
    + apply String.eqb_eq in E. subst k'.
      destruct (String.eqb k k0) eqn:E0; [| reflexivity].
      apply String.eqb_eq in E0. contradiction.
    + now rewrite IH.
Qed.

Lemma filter_fresh_snoc (seen : list string) (t : string) (l : list string) :
  filter (fun y => negb (contains (seen ++ [t]) y)) l
  = filter (fun y => negb (contains seen y))
      (filter (fun y => negb (String.eqb y t)) l).
Proof.
  induction l as [| x l IH]; simpl; [reflexivity |].
  unfold contains at 1. rewrite existsb_app. simpl. rewrite orb_false_r.
  fold (contains seen x).
  destruct (String.eqb x t) eqn:E; simpl.
  - rewrite orb_true_r. simpl. exact IH.
  - rewrite orb_false_r. destruct (contains seen x); simpl; now rewrite IH.
Qed.

Lemma filter_fresh_absorb (seen : list string) (t : string) (l : list string) :
  contains seen t = true ->
  filter (fun y => negb (contains seen y))
    (filter (fun y => negb (String.eqb y t)) l)
  = filter (fun y => negb (contains seen y)) l.
Proof.
  intros Hin. induction l as [| x l IH]; simpl; [reflexivity |].
  destruct (String.eqb x t) eqn:E; simpl.
  - apply String.eqb_eq in E. subst x. rewrite Hin. simpl. exact IH.
  - now rewrite IH.
Qed.

Lemma first_occurrences_In (xs : list string) (x : string) :
  In x (first_occurrences xs) <-> In x xs.
Proof.
  induction xs as [| y r IH]; simpl; [tauto |].
  rewrite filter_In, IH. split.
  - intros [H | [H _]]; auto.
  - intros [H | H]; [now left |].
    destruct (string_dec y x) as [-> | Hne]; [now left | right].
    split; [assumption |].
    apply negb_true_iff, String.eqb_neq. congruence.
Qed.

Lemma first_occurrences_NoDup (xs : list string) : NoDup (first_occurrences xs).
Proof.
  induction xs as [| y r IH]; simpl; constructor.
  - rewrite filter_In. intros [_ H].
    now rewrite String.eqb_refl in H.
  - now apply NoDup_filter.
Qed.

Lemma first_occurrences_id (xs : list string) :
  NoDup xs -> first_occurrences xs = xs.
Proof.
  induction 1 as [| x r Hx Hr IH]; simpl; [reflexivity |].
  rewrite IH. f_equal.
  apply forallb_filter_id. apply forallb_forall. intros y Hy.
  apply negb_true_iff, String.eqb_neq. intros ->. contradiction.
Qed.

Section FillSchemas.

Variable self : DBSchemaExtractor.

(** The loop succeeds when every target is described; the keys it adds are
    the targets not yet present, in order of first occurrence, and every
    target ends up mapped to its description. *)
Lemma fill_schemas_ok (targets : list string) :
  forall d : dict TableSchema,
  (forall t, In t targets -> exists s, _get_table_schema self t = Ok s) ->
  exists d',
    fill_schemas self targets d = Ok d'
    /\ keys d' = (keys d ++ filter (fun y => negb (contains (keys d) y))
                              (first_occurrences targets))%list
    /\ (forall t, In t targets ->
          exists s, get d' t = Some s /\ _get_table_schema self t = Ok s)
    /\ (forall t, ~ In t targets -> get d' t = get d t).
Proof.
  induction targets as [| t r IH]; intros d Hall.
  - exists d. simpl. rewrite app_nil_r. repeat split. intros ? [].
  - destruct (Hall t (or_introl eq_refl)) as [s Hs].
    destruct (IH (setitem t s d)) as [d' [Hrun [Hkeys [Hvals Hrest]]]].
    { intros u Hu. apply Hall. now right. }
    exists d'. simpl. rewrite Hs. simpl. repeat split.
    + exact Hrun.
    + rewrite Hkeys, keys_setitem. cbn [first_occurrences filter].
      destruct (contains (keys d) t) eqn:Ein; cbn [negb].
      * now rewrite filter_fresh_absorb.
      * rewrite <- app_assoc. cbn [app].
        now rewrite filter_fresh_snoc.
    + intros u [<- | Hu].
      * destruct (in_dec string_dec t r) as [Hin | Hnin].
        -- now apply Hvals.
        -- exists s. split; [| exact Hs].
           rewrite (Hrest t Hnin). apply get_setitem_same.
      * now apply Hvals.
    + intros u Hu. rewrite Hrest by (intros H; apply Hu; now right).
      apply get_setitem_other. intros ->. apply Hu. now left.
Qed.

(** The loop stops at the first target whose description raises. *)
Lemma fill_schemas_raise (pre post : list string) (t : string) (e : exn) :
  forall d : dict TableSchema,
  (forall u, In u pre -> exists s, _get_table_schema self u = Ok s) ->
  _get_table_schema self t = Raise e ->
  fill_schemas self (pre ++ t :: post) d = Raise e.
Proof.
  induction pre as [| u pre IH]; intros d Hpre Ht; simpl.
  - now rewrite Ht.
  - destruct (Hpre u (or_introl eq_refl)) as [s Hs]. rewrite Hs. simpl.
    apply IH; [| exact Ht]. intros w Hw. apply Hpre. now right.
Qed.

(** A list with a failing target splits at its first failing target. *)
Lemma first_failure (targets : list string) (t : string) (e : exn) :
  In t targets ->
  _get_table_schema self t = Raise e ->
  exists pre t' post e',
    targets = (pre ++ t' :: post)%list
    /\ (forall u, In u pre -> exists s, _get_table_schema self u = Ok s)
    /\ _get_table_schema self t' = Raise e'.
Proof.
  induction targets as [| x r IH]; intros Hin Ht; [contradiction |].
  destruct (_get_table_schema self x) as [s | e0] eqn:Ex.
  - destruct Hin as [-> | Hin]; [congruence |].
    destruct (IH Hin Ht) as [pre [t' [post [e' [Heq [Hpre Hf]]]]]].
    exists (x :: pre), t', post, e'. repeat split.
    + simpl. now rewrite Heq.
    + intros u [<- | Hu]; [now exists s | now apply Hpre].
    + exact Hf.
  - exists [], x, r, e0. repeat split; [intros ? [] | exact Ex].
Qed.

End FillSchemas.

(* ------------------------------------------------------------------ *)
(** ** Table selection and the batch loop *)

Lemma filter_all_fresh (l : list string) :
  filter (fun y => negb (contains [] y)) l = l.
Proof.
  induction l as [| x l IH]; cbn [filter]; [reflexivity |].
  cbn [contains existsb negb] in *. now rewrite IH.
Qed.

Lemma select_targets_filter (discovered : list string) (names : string) :
  names <> "" ->
  select_targets discovered (Some names) = filter_entries discovered names.
Proof.
  intros Hne. unfold select_targets, filter_entries.
  destruct names; [contradiction | reflexivity].
Qed.

(** Running the batch on a given target list. *)
Lemma batch_ok (self : DBSchemaExtractor) (table_names : option string)
    (discovered : list string) :
  discover self = Ok discovered ->
  (forall t, In t (select_targets discovered table_names) ->
     exists s, _get_table_schema self t = Ok s) ->
  exists d,
    get_all_tables_schema self table_names = Ok d
    /\ keys d = first_occurrences (select_targets discovered table_names)
    /\ (forall t, In t (keys d) ->
          exists s, get d t = Some s /\ _get_table_schema self t = Ok s).
Proof.
  intros Hdisc Hall.
  destruct (fill_schemas_ok self _ [] Hall) as [d [Hrun [Hkeys [Hvals _]]]].
  exists d. unfold get_all_tables_schema. rewrite Hdisc. cbn [bind].
  change (keys (@nil (string * TableSchema))) with (@nil string) in Hkeys.
  rewrite filter_all_fresh in Hkeys. cbn [app] in Hkeys.
  split; [exact Hrun |]. split; [exact Hkeys |].
  intros t Ht. apply Hvals. rewrite Hkeys in Ht.
  apply (proj1 (first_occurrences_In _ _)) in Ht. exact Ht.
Qed.

(** C1 (amended). For every non-empty filter string: when discovery
    succeeds and every matched table can be described, the call returns a
    map whose keys are exactly the filter entries (split on commas, trimmed)
    that name a discovered table, in the filter's order, each distinct name
    once at its first occurrence, and each key is mapped to the description
    of its table.  Entries that name no discovered table are dropped and
    are never looked up, so they raise nothing. *)
Theorem get_all_tables_schema_filtered (self : DBSchemaExtractor)
    (names : string) (discovered : list string) :
  names <> "" ->
  discover self = Ok discovered ->
  (forall t, In t (filter_entries discovered names) ->
     exists s, _get_table_schema self t = Ok s) ->
  exists d,
    get_all_tables_schema self (Some names) = Ok d
    /\ keys d = first_occurrences (filter_entries discovered names)
    /\ (forall t, In t (keys d) ->
          exists s, get d t = Some s /\ _get_table_schema self t = Ok s).
Proof.
  intros Hne Hdisc Hall.
  rewrite <- (select_targets_filter discovered names Hne) in *.
  now apply batch_ok.
Qed.

(** The end-to-end scenario of C1: tables orders, customers, products and
    the filter orders,customers give exactly two keys, in that order. *)
Lemma get_all_tables_schema_filtered_witness :
  exists d,
    get_all_tables_schema Fixtures.shop (Some "orders,customers") = Ok d
    /\ keys d = ["orders"; "customers"].
Proof.
  destruct (get_all_tables_schema_filtered Fixtures.shop "orders,customers"
              ["orders"; "customers"; "products"]) as [d [Hrun [Hkeys _]]].
  - discriminate.
  - reflexivity.
  - intros t Ht. vm_compute in Ht.
    destruct Ht as [<- | [<- | []]]; eexists; vm_compute; reflexivity.
  - exists d. split; [exact Hrun | exact Hkeys].
Defined.

(** C1 as stated fails at the empty filter string: its only entry is the
    empty name, which no table of the shop bears, yet the call returns all
    three tables. *)
Lemma get_all_tables_schema_filtered_counterexample :
  ~ (forall (self : DBSchemaExtractor) (names : string) (discovered : list string),
       discover self = Ok discovered ->
       (forall t, In t (filter_entries discovered names) ->
          exists s, _get_table_schema self t = Ok s) ->
       exists d,
         get_all_tables_schema self (Some names) = Ok d
         /\ keys d = first_occurrences (filter_entries discovered names)).
Proof.
  intros H.
  destruct (H Fixtures.shop "" ["orders"; "customers"; "products"])
    as [d [Hrun Hkeys]].
  - reflexivity.
  - intros t Ht. vm_compute in Ht. contradiction.
  - vm_compute in Hrun. injection Hrun as <-. vm_compute in Hkeys. discriminate.
Qed.

(** C10. The empty filter string is the absent filter: the two calls are
    the same computation, and (when discovery succeeds and every table can
    be described) the result holds every discovered table, in catalog
    order; the empty string is not split into entries. *)
Theorem empty_filter_is_no_filter (self : DBSchemaExtractor)
    (discovered : list string) :
  discover self = Ok discovered ->
  (forall t, In t discovered -> exists s, _get_table_schema self t = Ok s) ->
  get_all_tables_schema self (Some "") = get_all_tables_schema self None
  /\ exists d,
       get_all_tables_schema self (Some "") = Ok d
       /\ keys d = first_occurrences discovered
       /\ (NoDup discovered -> keys d = discovered)
       /\ (forall t, In t discovered ->
             exists s, get d t = Some s /\ _get_table_schema self t = Ok s).
Proof.
  intros Hdisc Hall. split; [reflexivity |].
  destruct (batch_ok self (Some "") discovered Hdisc Hall)
    as [d [Hrun [Hkeys Hvals]]].
  cbn [select_targets truthy] in Hkeys.
  exists d. split; [exact Hrun |]. split; [exact Hkeys |]. split.
  - intros Hnd. rewrite Hkeys. now apply first_occurrences_id.
  - intros t Ht. apply Hvals. rewrite Hkeys.
    now apply first_occurrences_In.
Qed.

Lemma empty_filter_is_no_filter_witness :
  get_all_tables_schema Fixtures.shop (Some "")
  = get_all_tables_schema Fixtures.shop None
  /\ exists d,
       get_all_tables_schema Fixtures.shop (Some "") = Ok d
       /\ keys d = ["orders"; "customers"; "products"].
Proof.
  destruct (empty_filter_is_no_filter Fixtures.shop
              ["orders"; "customers"; "products"]) as [Heq [d [Hrun [Hkeys _]]]].
  - reflexivity.
  - intros t Ht.
    destruct Ht as [<- | [<- | [<- | []]]]; eexists; vm_compute; reflexivity.
  - split; [exact Heq |]. exists d. split; [exact Hrun | exact Hkeys].
Defined.

(** C6. When describing some target table raises, the whole call raises:
    the error is the one raised for the first failing target, the tables
    before it were described and their descriptions are discarded, and no
    map is returned. *)
Theorem failure_aborts_batch (self : DBSchemaExtractor)
    (table_names : option string) (discovered : list string)
    (t : string) (e : exn) :
  discover self = Ok discovered ->
  In t (select_targets discovered table_names) ->
  _get_table_schema self t = Raise e ->
  (forall d, get_all_tables_schema self table_names <> Ok d)
  /\ exists pre t' post e',
       select_targets discovered table_names = (pre ++ t' :: post)%list
       /\ (forall u, In u pre -> exists s, _get_table_schema self u = Ok s)
       /\ _get_table_schema self t' = Raise e'
       /\ get_all_tables_schema self table_names = Raise e'.
Proof.
  intros Hdisc Hin Ht.
  destruct (first_failure self _ t e Hin Ht)
    as [pre [t' [post [e' [Heq [Hpre Hf]]]]]].
  assert (Hrun : get_all_tables_schema self table_names = Raise e').
  { unfold get_all_tables_schema. rewrite Hdisc. cbn [bind]. rewrite Heq.
    now apply fill_schemas_raise. }
  split.
  - intros d Hd. rewrite Hrun in Hd. discriminate.
  - exists pre, t', post, e'. repeat split; assumption.
Qed.

Lemma failure_aborts_batch_witness :
  get_all_tables_schema Fixtures.broken_shop None
  = Raise (SQLAlchemyError "permission denied").
Proof.
  destruct (failure_aborts_batch Fixtures.broken_shop None
              ["orders"; "customers"; "products"] "customers"
              (SQLAlchemyError "permission denied"))
    as [_ [pre [t' [post [e' [_ [_ [_ Hrun]]]]]]]].
  - reflexivity.
  - right. left. reflexivity.
  - reflexivity.
  - rewrite Hrun. vm_compute in Hrun. injection Hrun as <-. reflexivity.
Defined.

(* ------------------------------------------------------------------ *)
(** ** Table comments *)

Lemma run_comment_query_ok (self : DBSchemaExtractor) (q t : string)
    (r : option Row) :
  truthy q = true ->
  fetchone (engine self) q = Ok r ->
  run_comment_query self q t
  = Ok (match r with
        | Some (Some (String c s) :: _) => String c s
        | _ => t
        end).
Proof.
  intros Hq Hr. unfold run_comment_query. rewrite Hq, Hr. cbn [bind].
  destruct r as [[| [[| c s] |] row] |]; reflexivity.
Qed.

Lemma lookup_query_truthy (family t : string) :
  truthy (lookup_query family t) = true.
Proof.
  unfold lookup_query.
  destruct (String.eqb family "mysql"); [reflexivity |].
  destruct (String.eqb family "postgresql"); reflexivity.
Qed.

Lemma generic_comment_runs_lookup (self : DBSchemaExtractor) (t : string) :
  In (db_type self) ["mysql"; "postgresql"; "mssql"] ->
  _get_table_comment self t
  = run_comment_query self (lookup_query (db_type self) t) t.
Proof.
  unfold _get_table_comment, lookup_query.
  intros [<- | [<- | [<- | []]]]; reflexivity.
Qed.

(** C2. On the generic path (mysql, postgresql, mssql) the table comment
    is the table name when the lookup query yields no row, or a row whose
    first value is null or empty; otherwise it is that first value. *)
Theorem table_comment_or_name (self : DBSchemaExtractor) (t : string)
    (r : option Row) :
  In (db_type self) ["mysql"; "postgresql"; "mssql"] ->
  fetchone (engine self) (lookup_query (db_type self) t) = Ok r ->
  (r = None -> _get_table_comment self t = Ok t)
  /\ (forall row, r = Some row ->
        hd_error row = None \/ hd_error row = Some None
        \/ hd_error row = Some (Some "") ->
        _get_table_comment self t = Ok t)
  /\ (forall row s, r = Some row -> hd_error row = Some (Some s) -> s <> "" ->
        _get_table_comment self t = Ok s).
Proof.
  intros Hfam Hr.
  rewrite (generic_comment_runs_lookup self t Hfam).
  rewrite (run_comment_query_ok self _ t r (lookup_query_truthy _ _) Hr).
  split; [| split].
  - intros ->. reflexivity.
  - intros row -> H. destruct row as [| [[| c s] |] row]; try reflexivity.
    destruct H as [H | [H | H]]; discriminate.
  - intros row s -> H Hs. destruct row as [| v row]; [discriminate |].
    injection H as ->. destruct s; [contradiction | reflexivity].
Qed.

Lemma table_comment_or_name_witness :
  _get_table_comment Fixtures.crm "accounts" = Ok "Customer accounts"
  /\ _get_table_comment Fixtures.crm "leads" = Ok "leads"
  /\ _get_table_comment Fixtures.crm "tickets" = Ok "tickets".
Proof.
  split; [| split].
  - refine (proj2 (proj2 (table_comment_or_name Fixtures.crm "accounts"
                            (Some [Some "Customer accounts"]) _ _))
                  [Some "Customer accounts"] "Customer accounts" _ _ _).
    + left. reflexivity.
    + reflexivity.
    + reflexivity.
    + reflexivity.
    + discriminate.
  - refine (proj1 (proj2 (table_comment_or_name Fixtures.crm "leads"
                            (Some [None]) _ _)) [None] _ _).
    + left. reflexivity.
    + reflexivity.
    + reflexivity.
    + right. left. reflexivity.
  - refine (proj1 (table_comment_or_name Fixtures.crm "tickets" None _ _) _).
    + left. reflexivity.
    + reflexivity.
    + reflexivity.
Defined.

(** *** The comment pattern *)


Lemma lower_nil (s : string) : lower s = "" -> s = "".
Proof. destruct s; [reflexivity | discriminate]. Qed.

Lemma skip_prefix_ci_sound (p : string) :
  forall s rest, skip_prefix_ci p s = Some rest ->
  exists kw, s = kw ++ rest /\ lower kw = lower p.
Proof.
  induction p as [| a p IH]; intros s rest H; simpl in H.
  - injection H as <-. now exists "".
  - destruct s as [| b s]; [discriminate |].
    destruct (Ascii.eqb (lower_char a) (lower_char b)) eqn:E; [| discriminate].
    apply Ascii.eqb_eq in E.
    destruct (IH s rest H) as [kw [-> Hkw]].
    exists (String b kw). split; [reflexivity |].
    unfold lower in *. simpl. now rewrite Hkw, E.
Qed.

Lemma skip_prefix_ci_complete (p : string) :
  forall kw rest, lower kw = lower p ->
  skip_prefix_ci p (kw ++ rest) = Some rest.
Proof.
  induction p as [| a p IH]; intros kw rest H.
  - apply lower_nil in H. now subst kw.
  - destruct kw as [| b kw]; [discriminate |].
    unfold lower in H. simpl in H. injection H as Hc Hkw.
    simpl. rewrite Hc, Ascii.eqb_refl. now apply IH.
Qed.

Lemma lazy_group_sound (s : string) :
  forall g, lazy_group s = Some g ->
  exists post, s = g ++ "'" ++ post /\ string_forallb plain g = true.
Proof.
  induction s as [| c s IH]; intros g H; simpl in H; [discriminate |].
  destruct (Ascii.eqb c "'") eqn:Eq.
  - injection H as <-. apply Ascii.eqb_eq in Eq. subst c. now exists s.
  - destruct (Ascii.eqb c LF) eqn:El; [discriminate |].
    destruct (lazy_group s) as [g0 |] eqn:Eg; [| discriminate].
    injection H as <-.
    destruct (IH g0 eq_refl) as [post [-> Hg]].
    exists post. split; [reflexivity |].
    simpl. unfold plain at 1. now rewrite Eq, El.
Qed.

Lemma lazy_group_complete (g post : string) :
  string_forallb plain g = true ->
  lazy_group (g ++ "'" ++ post) = Some g.
Proof.
  induction g as [| c g IH]; intros H; [reflexivity |].
  simpl in H. apply andb_true_iff in H. destruct H as [Hc Hg].
  unfold plain in Hc. apply andb_true_iff in Hc. destruct Hc as [Hq Hl].
  apply negb_true_iff in Hq, Hl.
  specialize (IH Hg). simpl in *. now rewrite Hq, Hl, IH.
Qed.

Lemma match_here_spec (s g : string) :
  match_here s = Some g <-> matches_after "" s g.
Proof.
  unfold match_here, matches_after. split.
  - destruct (skip_prefix_ci "COMMENT='" s) as [rest |] eqn:E; [| discriminate].
    intros H. apply skip_prefix_ci_sound in E. destruct E as [kw [-> Hkw]].
    apply lazy_group_sound in H. destruct H as [post [-> Hg]].
    exists kw, post. repeat split; assumption.
  - intros [kw [post [-> [Hkw Hg]]]].
    change ("" ++ kw ++ g ++ "'" ++ post) with (kw ++ g ++ "'" ++ post).
    rewrite (skip_prefix_ci_complete "COMMENT='" kw _ Hkw).
    now apply lazy_group_complete.
Qed.

Lemma matches_after_cons (c : ascii) (pre s g : string) :
  matches_after (String c pre) (String c s) g <-> matches_after pre s g.
Proof.
  unfold matches_after. split; intros [kw [post [H R]]]; exists kw, post;
    (split; [| exact R]).
  - simpl in H. now injection H.
  - simpl. now rewrite H.
Qed.

Lemma matches_after_head (c c' : ascii) (pre s g : string) :
  matches_after (String c pre) (String c' s) g -> c = c'.
Proof.
  intros [kw [post [H _]]]. simpl in H. now injection H.
Qed.

Lemma matches_after_empty (pre g : string) : ~ matches_after pre "" g.
Proof.
  intros [kw [post [H [Hkw _]]]].
  destruct pre; [| discriminate]. destruct kw; discriminate.
Qed.

Lemma re_search_comment_some (s : string) :
  forall g, re_search_comment s = Some g -> first_match s g.
Proof.
  induction s as [| c s IH]; intros g H.
  - simpl in H. destruct (match_here "") eqn:E; discriminate.
  - simpl in H. destruct (match_here (String c s)) as [g0 |] eqn:E.
    + injection H as <-. exists "". split; [now apply match_here_spec |].
      simpl. intros pre' g' Hlt. inversion Hlt.
    + destruct (IH g H) as [pre [Hm Hleft]].
      exists (String c pre). split; [now apply matches_after_cons |].
      intros pre' g' Hlt Hm'. destruct pre' as [| c' pre'].
      * apply match_here_spec in Hm'. congruence.
      * pose proof (matches_after_head _ _ _ _ _ Hm') as ->.
        apply matches_after_cons in Hm'.
        apply (Hleft pre' g'); [simpl in Hlt; lia | exact Hm'].
Qed.

Lemma re_search_comment_none (s : string) :
  re_search_comment s = None -> no_match s.
Proof.
  induction s as [| c s IH]; intros H pre g Hm.
  - now apply matches_after_empty in Hm.
  - simpl in H. destruct (match_here (String c s)) as [g0 |] eqn:E;
      [discriminate |].
    destruct pre as [| c' pre].
    + apply match_here_spec in Hm. congruence.
    + pose proof (matches_after_head _ _ _ _ _ Hm) as ->.
      apply matches_after_cons in Hm. exact (IH H pre g Hm).
Qed.

Lemma matches_after_same_start (pre : string) :
  forall pre2 s g g2,
  String.length pre = String.length pre2 ->
  matches_after pre s g -> matches_after pre2 s g2 -> g = g2.
Proof.
  induction pre as [| c pre IH]; intros pre2 s g g2 Hlen H1 H2.
  - destruct pre2; [| discriminate].
    apply match_here_spec in H1, H2. congruence.
  - destruct pre2 as [| c2 pre2]; [discriminate |].
    destruct s as [| c0 s]; [now apply matches_after_empty in H1 |].
    pose proof (matches_after_head _ _ _ _ _ H1) as ->.
    pose proof (matches_after_head _ _ _ _ _ H2) as ->.
    apply matches_after_cons in H1, H2.
    injection Hlen as Hlen. exact (IH pre2 s g g2 Hlen H1 H2).
Qed.

Lemma first_match_unique (s g g2 : string) :
  first_match s g -> first_match s g2 -> g = g2.
Proof.
  intros [pre [H1 L1]] [pre2 [H2 L2]].
  destruct (Nat.lt_trichotomy (String.length pre) (String.length pre2))
    as [Hlt | [Heq | Hgt]].
  - now destruct (L2 pre g Hlt).
  - exact (matches_after_same_start pre pre2 s g g2 Heq H1 H2).
  - now destruct (L1 pre2 g2 Hgt).
Qed.

(** The search returns the capture of the leftmost match, and nothing
    exactly when the text holds no match. *)
Lemma re_search_comment_spec (s : string) :
  (forall g, re_search_comment s = Some g <-> first_match s g)
  /\ (re_search_comment s = None <-> no_match s).
Proof.
  split.
  - intros g. split; [apply re_search_comment_some |].
    intros Hf. destruct (re_search_comment s) as [g0 |] eqn:E.
    + apply re_search_comment_some in E.
      now rewrite (first_match_unique s g g0 Hf E).
    + apply re_search_comment_none in E.
      destruct Hf as [pre [Hm _]]. now destruct (E pre g).
  - split; [apply re_search_comment_none |].
    intros Hn. destruct (re_search_comment s) as [g0 |] eqn:E; [| reflexivity].
    apply re_search_comment_some in E. destruct E as [pre [Hm _]].
    now destruct (Hn pre g0).
Qed.

Lemma doris_comment_from_statement (self : DBSchemaExtractor) (t stmt : string) :
  db_type self = "doris" ->
  _get_doris_create_statement self t = Ok stmt ->
  _get_table_comment self t
  = Ok (match re_search_comment stmt with Some g => g | None => t end).
Proof.
  intros Hfam Hstmt. unfold _get_table_comment.
  rewrite Hfam, Hstmt. cbn [String.eqb Ascii.eqb Bool.eqb bind].
  now destruct (re_search_comment stmt).
Qed.

(** C3 (amended). For the doris family the table comment comes from the
    CREATE statement, the second value of the row that the query
    SHOW CREATE TABLE <name>; returns: it is the capture of the leftmost
    case-insensitive match of COMMENT='...', and the table name when there
    is no match, which includes a fetch that yields no row, an empty row
    or a null or empty statement.  A statement whose leftmost match is
    COMMENT='Sales data' gives Sales data. *)
Theorem doris_table_comment (self : DBSchemaExtractor) (t : string) :
  db_type self = "doris" ->
  (forall row stmt,
     fetchone (engine self) ("SHOW CREATE TABLE " ++ t ++ ";") = Ok (Some row) ->
     nth_error row 1 = Some (Some stmt) ->
     (forall g, first_match stmt g -> _get_table_comment self t = Ok g)
     /\ (no_match stmt -> _get_table_comment self t = Ok t))
  /\ (forall r,
        fetchone (engine self) ("SHOW CREATE TABLE " ++ t ++ ";") = Ok r ->
        r = None \/ r = Some []
        \/ (exists row, r = Some row
              /\ (nth_error row 1 = Some None
                  \/ nth_error row 1 = Some (Some ""))) ->
        _get_table_comment self t = Ok t)
  /\ (forall row pre post,
        fetchone (engine self) ("SHOW CREATE TABLE " ++ t ++ ";")
        = Ok (Some row) ->
        nth_error row 1 = Some (Some (pre ++ "COMMENT='Sales data'" ++ post)) ->
        (forall pre' g', String.length pre' < String.length pre ->
           ~ matches_after pre' (pre ++ "COMMENT='Sales data'" ++ post) g') ->
        _get_table_comment self t = Ok "Sales data").
Proof.
  intros Hfam.
  assert (Hfetch : forall row stmt,
            fetchone (engine self) ("SHOW CREATE TABLE " ++ t ++ ";")
            = Ok (Some row) ->
            nth_error row 1 = Some (Some stmt) ->
            _get_doris_create_statement self t = Ok stmt).
  { intros row stmt Hr Hn. unfold _get_doris_create_statement, show_create_query.
    rewrite Hr. cbn [bind]. destruct row as [| v row]; [discriminate |].
    cbv beta iota. unfold getitem. rewrite Hn. cbn [bind]. now destruct stmt. }
  assert (Hfirst : forall stmt g,
            _get_doris_create_statement self t = Ok stmt ->
            first_match stmt g -> _get_table_comment self t = Ok g).
  { intros stmt g Hstmt Hg.
    rewrite (doris_comment_from_statement self t stmt Hfam Hstmt).
    apply (proj1 (re_search_comment_spec stmt)) in Hg. now rewrite Hg. }
  assert (Hnone : forall stmt,
            _get_doris_create_statement self t = Ok stmt ->
            no_match stmt -> _get_table_comment self t = Ok t).
  { intros stmt Hstmt Hn.
    rewrite (doris_comment_from_statement self t stmt Hfam Hstmt).
    apply (proj2 (re_search_comment_spec stmt)) in Hn. now rewrite Hn. }
  split; [| split].
  - intros row stmt Hr Hn. pose proof (Hfetch row stmt Hr Hn) as Hstmt.
    split; [intros g; apply Hfirst | apply Hnone]; assumption.
  - intros r Hr Hnothing. apply (Hnone "").
    + unfold _get_doris_create_statement, show_create_query.
      rewrite Hr. cbn [bind].
      destruct Hnothing as [-> | [-> | [row [-> Hn]]]]; try reflexivity.
      destruct row as [| v row]; [reflexivity |].
      cbv beta iota. unfold getitem. destruct Hn as [Hn | Hn]; now rewrite Hn.
    + intros pre g. apply matches_after_empty.
  - intros row pre post Hr Hn Hleft.
    apply (Hfirst _ _ (Hfetch row _ Hr Hn)).
    exists pre. split; [| exact Hleft].
    exists "COMMENT='", post. repeat split.
Qed.

Lemma doris_table_comment_witness :
  _get_table_comment Fixtures.warehouse "sales" = Ok "Sales data"
  /\ _get_table_comment Fixtures.warehouse "returns" = Ok "returns".
Proof.
  split.
  - apply (proj1 (proj1 (doris_table_comment Fixtures.warehouse "sales"
                           eq_refl)
                    [Some "sales"; Some Fixtures.sales_create_statement]
                    Fixtures.sales_create_statement eq_refl eq_refl)).
    apply re_search_comment_some. vm_compute. reflexivity.
  - apply (proj1 (proj2 (doris_table_comment Fixtures.warehouse
                           "returns" eq_refl)) None eq_refl).
    left. reflexivity.
Defined.

(** C3 as stated fails on a statement that holds COMMENT='Sales data'
    after an earlier COMMENT='...': the search returns the earlier
    capture. *)
Lemma doris_table_comment_counterexample :
  ~ (forall (self : DBSchemaExtractor) (t : string) (row : Row)
            (pre post : string),
       db_type self = "doris" ->
       fetchone (engine self) ("SHOW CREATE TABLE " ++ t ++ ";")
       = Ok (Some row) ->
       nth_error row 1 = Some (Some (pre ++ "COMMENT='Sales data'" ++ post)) ->
       _get_table_comment self t = Ok "Sales data").
Proof.
  intros H.
  specialize (H Fixtures.annotated "sales"
                [Some "sales"; Some Fixtures.annotated_create_statement]
                "CREATE TABLE `sales` (`id` INT COMMENT='row id') ENGINE=OLAP "
                "" eq_refl eq_refl eq_refl).
  vm_compute in H. discriminate.
Qed.

(* ------------------------------------------------------------------ *)
(** ** The three extraction routines *)

Lemma replace_LF_spec (s : string) : replace LF "" s = without_newlines s.
Proof.
  unfold without_newlines. induction s as [| c s IH]; simpl; [reflexivity |].
  destruct (Ascii.eqb c LF); simpl; now rewrite IH.
Qed.

Lemma without_newlines_clean (s : string) : no_newline (without_newlines s).
Proof.
  unfold no_newline. rewrite <- replace_LF_spec.
  induction s as [| c s IH]; simpl; [reflexivity |].
  destruct (Ascii.eqb c LF) eqn:E; simpl; [exact IH | now rewrite E].
Qed.

Lemma without_newlines_id (s : string) :
  no_newline s -> without_newlines s = s.
Proof.
  unfold no_newline. rewrite <- replace_LF_spec.
  induction s as [| c s IH]; simpl; [reflexivity |].
  destruct (Ascii.eqb c LF); simpl; [discriminate |].
  intros H. now rewrite (IH H).
Qed.

Lemma column_of_row_comment (row : Row) (c : ColumnInfo) :
  column_of_row row = Ok c ->
  col_comment c = without_newlines (or_empty (third row)).
Proof.
  unfold column_of_row, getitem, third.
  destruct row as [| c0 [| c1 [| c2 row]]]; simpl; try discriminate.
  intros H. injection H as <-. simpl. apply replace_LF_spec.
Qed.

Lemma mapM_column_comments (rows : list Row) :
  forall cols, mapM column_of_row rows = Ok cols ->
  map col_comment cols
  = map (fun row => without_newlines (or_empty (third row))) rows.
Proof.
  induction rows as [| row rows IH]; intros cols H; simpl in H.
  - injection H as <-. reflexivity.
  - destruct (column_of_row row) as [c |] eqn:Ec; [| discriminate].
    destruct (mapM column_of_row rows) as [cs |]; [| discriminate].
    simpl in H. injection H as <-. simpl.
    now rewrite (column_of_row_comment row c Ec), (IH cs eq_refl).
Qed.

Lemma doris_schema_inv (self : DBSchemaExtractor) (t : string) (s : TableSchema) :
  _get_doris_table_schema self t = Ok s ->
  exists rows,
    fetchall (engine self) (doris_col_query (url_database (engine_url self)) t)
    = Ok rows
    /\ map col_comment (columns s)
       = map (fun row => without_newlines (or_empty (third row))) rows.
Proof.
  unfold _get_doris_table_schema. intros H.
  destruct (fetchone (engine self) _) as [r |]; [| discriminate].
  cbn [bind] in H.
  destruct (match r with Some ((_ :: _) as row) => getitem row 0
                       | _ => Ok (Some "") end) as [c0 |]; [| discriminate].
  cbn [bind] in H.
  destruct (fetchall (engine self) _) as [rows |]; [| discriminate].
  cbn [bind] in H.
  destruct (mapM column_of_row rows) as [cols |] eqn:Ec; [| discriminate].
  cbn [bind] in H. injection H as <-.
  exists rows. split; [reflexivity | now apply mapM_column_comments].
Qed.

Lemma oracle_schema_inv (self : DBSchemaExtractor) (t : string) (s : TableSchema) :
  _get_oracle_table_schema self t = Ok s ->
  exists rows,
    fetchall (engine self) (oracle_columns_query (username self) t) = Ok rows
    /\ map col_comment (columns s)
       = map (fun row => without_newlines (or_empty (third row))) rows.
Proof.
  unfold _get_oracle_table_schema. intros H.
  destruct (fetchone (engine self) _) as [r |]; [| discriminate].
  cbn [bind] in H.
  destruct (match r with Some ((_ :: _) as row) => getitem row 0
                       | _ => Ok (Some "") end) as [c0 |]; [| discriminate].
  cbn [bind] in H.
  destruct (fetchall (engine self) _) as [rows |]; [| discriminate].
  cbn [bind] in H.
  destruct (mapM column_of_row rows) as [cols |] eqn:Ec; [| discriminate].
  cbn [bind] in H. injection H as <-.
  exists rows. split; [reflexivity | now apply mapM_column_comments].
Qed.

Lemma generic_schema_inv (self : DBSchemaExtractor) (t : string) (s : TableSchema) :
  db_type self <> "oracle" -> db_type self <> "doris" ->
  _get_table_schema self t = Ok s ->
  exists c cols,
    _get_table_comment self t = Ok c
    /\ get_columns (engine self) t = Ok cols
    /\ s = mkSchema t (Some c) (map column_of_reflected cols).
Proof.
  intros Ho Hd. unfold _get_table_schema.
  apply String.eqb_neq in Ho, Hd. rewrite Ho, Hd. intros H.
  destruct (_get_table_comment self t) as [c |]; [| discriminate].
  cbn [bind] in H.
  destruct (get_columns (engine self) t) as [cols |]; [| discriminate].
  cbn [bind] in H. injection H as <-. now exists c, cols.
Qed.

Lemma comments_clean (cols : list ColumnInfo) (raw : list string) :
  map col_comment cols = map without_newlines raw ->
  Forall (fun c => no_newline (col_comment c)) cols.
Proof.
  revert raw. induction cols as [| c cols IH]; intros raw H; constructor.
  - destruct raw as [| r raw]; [discriminate |]. simpl in H.
    injection H as -> _. apply without_newlines_clean.
  - destruct raw as [| r raw]; [discriminate |]. simpl in H.
    injection H as _ H. now apply (IH raw).
Qed.

(** C5. In each routine that extracts column comments (generic, doris,
    oracle), the comment of every returned column is the value read from
    the database (the empty text for a null) with every newline character
    taken out; no returned column comment holds a newline. *)
Theorem column_comments_lose_newlines (self : DBSchemaExtractor) (t : string)
    (s : TableSchema) :
  (db_type self <> "oracle" -> db_type self <> "doris" ->
   _get_table_schema self t = Ok s ->
   exists cols,
     get_columns (engine self) t = Ok cols
     /\ map col_comment (columns s)
        = map (fun c => without_newlines (or_empty (rc_comment c))) cols
     /\ Forall (fun c => no_newline (col_comment c)) (columns s))
  /\ (_get_doris_table_schema self t = Ok s ->
      exists rows,
        fetchall (engine self)
          (doris_col_query (url_database (engine_url self)) t) = Ok rows
        /\ map col_comment (columns s)
           = map (fun row => without_newlines (or_empty (third row))) rows
        /\ Forall (fun c => no_newline (col_comment c)) (columns s))
  /\ (_get_oracle_table_schema self t = Ok s ->
      exists rows,
        fetchall (engine self) (oracle_columns_query (username self) t)
        = Ok rows
        /\ map col_comment (columns s)
           = map (fun row => without_newlines (or_empty (third row))) rows
        /\ Forall (fun c => no_newline (col_comment c)) (columns s)).
Proof.
  split; [| split].
  - intros Ho Hd H.
    destruct (generic_schema_inv self t s Ho Hd H) as [c [cols [_ [Hc ->]]]].
    exists cols. split; [exact Hc |].
    assert (Hmap : map col_comment (map column_of_reflected cols)
                   = map (fun c => without_newlines (or_empty (rc_comment c)))
                       cols).
    { rewrite map_map. apply map_ext. intros rc. apply replace_LF_spec. }
    split; [exact Hmap |].
    apply (comments_clean _ (map (fun c => or_empty (rc_comment c)) cols)).
    cbn [columns]. now rewrite Hmap, map_map.
  - intros H. destruct (doris_schema_inv self t s H) as [rows [Hr Hmap]].
    exists rows. split; [exact Hr |]. split; [exact Hmap |].
    apply (comments_clean _ (map (fun row => or_empty (third row)) rows)).
    now rewrite Hmap, map_map.
  - intros H. destruct (oracle_schema_inv self t s H) as [rows [Hr Hmap]].
    exists rows. split; [exact Hr |]. split; [exact Hmap |].
    apply (comments_clean _ (map (fun row => or_empty (third row)) rows)).
    now rewrite Hmap, map_map.
Qed.

Lemma column_comments_lose_newlines_witness :
  exists s,
    _get_table_schema Fixtures.warehouse "sales" = Ok s
    /\ map col_comment (columns s) = [""; "day ofthe sale"]
    /\ Forall (fun c => no_newline (col_comment c)) (columns s).
Proof.
  destruct (_get_table_schema Fixtures.warehouse "sales") as [s |] eqn:E;
    [| discriminate].
  exists s. split; [reflexivity |].
  destruct (proj1 (proj2 (column_comments_lose_newlines
                            Fixtures.warehouse "sales" s)) E)
    as [rows [Hrows [Hmap Hclean]]].
  split; [| exact Hclean].
  rewrite Hmap. vm_compute in Hrows. injection Hrows as <-.
  vm_compute. reflexivity.
Defined.

(* ------------------------------------------------------------------ *)
(** ** Null table comments *)

(** X16. With no catalog row the oracle and doris routines leave the
    comment empty; the generic routine always yields a text. *)
Lemma absent_row_gives_empty_comment (self : DBSchemaExtractor) (t : string)
    (s : TableSchema) :
  (_get_oracle_table_schema self t = Ok s ->
   fetchone (engine self) (oracle_comment_query (username self) t) = Ok None ->
   comment s = Some "")
  /\ (_get_doris_table_schema self t = Ok s ->
      fetchone (engine self)
        (doris_table_query (url_database (engine_url self)) t) = Ok None ->
      comment s = Some "")
  /\ (db_type self <> "oracle" -> db_type self <> "doris" ->
      _get_table_schema self t = Ok s -> exists c, comment s = Some c).
Proof.
  split; [| split].
  - unfold _get_oracle_table_schema. intros H Hr. rewrite Hr in H.
    cbn [bind] in H.
    destruct (fetchall (engine self) _) as [rows |]; [| discriminate].
    cbn [bind] in H.
    destruct (mapM column_of_row rows); [| discriminate].
    injection H as <-. reflexivity.
  - unfold _get_doris_table_schema. intros H Hr. rewrite Hr in H.
    cbn [bind] in H.
    destruct (fetchall (engine self) _) as [rows |]; [| discriminate].
    cbn [bind] in H.
    destruct (mapM column_of_row rows); [| discriminate].
    injection H as <-. reflexivity.
  - intros Ho Hd H.
    destruct (generic_schema_inv self t s Ho Hd H) as [c [cols [_ [_ ->]]]].
    now exists c.
Qed.

(** C4 at its failing input. A catalog row that exists and carries a null
    comment makes the oracle routine, and likewise the doris routine,
    return a schema whose comment is null, not the empty text. *)
Theorem null_comment_is_returned :
  fetchone Fixtures.hr_server (oracle_comment_query "HR" "employees")
  = Ok (Some [None])
  /\ (exists s, _get_table_schema Fixtures.hr "employees" = Ok s
                /\ comment s = None)
  /\ fetchone Fixtures.warehouse_server (doris_table_query "warehouse" "sales")
     = Ok (Some [None])
  /\ (exists s, _get_table_schema Fixtures.warehouse "sales" = Ok s
                /\ comment s = None).
Proof.
  split; [reflexivity |]. split; [| split; [reflexivity |]].
  - eexists. split; [vm_compute; reflexivity | reflexivity].
  - eexists. split; [vm_compute; reflexivity | reflexivity].
Qed.

(* ------------------------------------------------------------------ *)
(** ** Construction *)

(** The connection descriptor depends on the family only through its
    lowercase spelling. *)
Lemma build_db_url_case (rt : Runtime) (a b host : string) (port : Z)
    (user password database properties : string) :
  lower a = lower b ->
  _build_db_url rt a host port user password database properties
  = _build_db_url rt b host port user password database properties.
Proof. intros H. unfold _build_db_url. now rewrite H. Qed.

(** The doris alias connects with the mysql protocol and driver. *)
Lemma build_db_url_doris (rt : Runtime) (host : string) (port : Z)
    (user password database properties : string) :
  _build_db_url rt "doris" host port user password database properties
  = _build_db_url rt "mysql" host port user password database properties.
Proof. reflexivity. Qed.

(** Every supported family gets a descriptor. *)
Lemma build_db_url_supported (rt : Runtime) (family host : string) (port : Z)
    (user password database properties : string) :
  supported family ->
  exists u,
    _build_db_url rt family host port user password database properties = Ok u.
Proof.
  unfold supported, supported_families, _build_db_url.
  intros [H | [H | [H | [H | [H | []]]]]]; rewrite <- H; eexists; reflexivity.
Qed.

Lemma subscript_drivers_missing (k : string) :
  ~ In k ["mysql"; "oracle"; "mssql"; "postgresql"] ->
  subscript drivers k = Raise (KeyError k).
Proof.
  intros H. unfold subscript, drivers. cbn [get].
  destruct (String.eqb_spec "mysql" k) as [E | _];
    [exfalso; apply H; rewrite <- E; simpl; tauto |].
  destruct (String.eqb_spec "oracle" k) as [E | _];
    [exfalso; apply H; rewrite <- E; simpl; tauto |].
  destruct (String.eqb_spec "mssql" k) as [E | _];
    [exfalso; apply H; rewrite <- E; simpl; tauto |].
  destruct (String.eqb_spec "postgresql" k) as [E | _];
    [exfalso; apply H; rewrite <- E; simpl; tauto |].
  reflexivity.
Qed.

(** C8. For every family string whose lowercase spelling is none of the
    five supported values, construction fails: the driver lookup raises
    (Python's KeyError on the family, the configuration error of this
    code), before any engine is created. *)
Theorem unsupported_family_is_rejected (rt : Runtime) (family host : string)
    (port : Z) (user password database properties : string) :
  ~ supported family ->
  __init__ rt family host port user password database properties
  = Raise (KeyError (lower family)).
Proof.
  unfold supported, supported_families. intros H.
  unfold __init__, _build_db_url.
  destruct (String.eqb_spec (lower family) "doris") as [E | _].
  - exfalso. apply H. rewrite E. simpl. tauto.
  - rewrite subscript_drivers_missing; [reflexivity |].
    intros Hin. apply H. simpl in *. tauto.
Qed.

Lemma unsupported_family_is_rejected_witness :
  __init__ Fixtures.crm_runtime "SQLite" "localhost" 0 "app" "secret" "crm" ""
  = Raise (KeyError "sqlite").
Proof.
  apply (unsupported_family_is_rejected Fixtures.crm_runtime "SQLite").
  unfold supported, supported_families. simpl.
  intros [H | [H | [H | [H | [H | []]]]]]; discriminate.
Defined.

(** C7 at its failing input. The spelling MySQL is accepted and builds the
    descriptor of mysql, but the extractor keeps the spelling it was given:
    its comment lookup matches no family and returns the table name, where
    the lowercase spelling returns the stored comment.  Likewise DORIS
    connects as mysql and then lists tables by reflection, not by the
    doris listing query. *)
Theorem mixed_case_family_leaves_its_path :
  (exists e e',
     __init__ Fixtures.crm_runtime "MySQL" "localhost" 3306 "app" "secret" "crm" ""
     = Ok e
     /\ __init__ Fixtures.crm_runtime "mysql" "localhost" 3306 "app" "secret" "crm" ""
        = Ok e'
     /\ engine_url e = engine_url e'
     /\ _get_table_comment e "accounts" = Ok "accounts"
     /\ _get_table_comment e' "accounts" = Ok "Customer accounts")
  /\ (exists e e',
        __init__ Fixtures.warehouse_runtime
          "DORIS" "doris-fe" 9030 "etl" "secret" "warehouse" "" = Ok e
        /\ __init__ Fixtures.warehouse_runtime
             "doris" "doris-fe" 9030 "etl" "secret" "warehouse" "" = Ok e'
        /\ engine_url e = engine_url e'
        /\ get_all_tables_schema e None
           = Raise (SQLAlchemyError "reflection is not supported")
        /\ exists d, get_all_tables_schema e' None = Ok d
                     /\ keys d = ["sales"]).
Proof.
  split.
  - do 2 eexists. repeat split; vm_compute; reflexivity.
  - do 2 eexists.
    split; [vm_compute; reflexivity |]. split; [vm_compute; reflexivity |].
    split; [reflexivity |]. split; [vm_compute; reflexivity |].
    eexists. split; [vm_compute; reflexivity | reflexivity].
Qed.

(* ------------------------------------------------------------------ *)
(** ** The oracle comment query *)














(** Why the names must hold no quote: a table name that closes the literal
    is read as further conditions. *)
Example oracle_comment_query_quote_in_name :
  exists cond,
    Sql.read_condition
      ("OWNER = '" ++ "HR" ++ "' AND TABLE_NAME = '" ++ "x' OR OWNER = 'SYS"
       ++ "' OR TABLE_NAME = '" ++ upper "x' OR OWNER = 'SYS" ++ "'")
    = Some cond
    /\ Sql.selects cond (tab_comments_row "SYS" "ANY_TABLE") = true.
Proof. eexists. split; [lazy; reflexivity | reflexivity]. Qed.

(* ------------------------------------------------------------------ *)
(** ** Further properties of construction *)

(** X1. For every supported family, in any letter case, the descriptor is
    built: its driver name is the dialect and driver of the family (doris
    connects as mysql), and the credentials, host, port and database are
    the arguments. *)
Theorem build_db_url_descriptor (rt : Runtime) (family host : string)
    (port : Z) (user password database properties : string) :
  supported family ->
  exists u,
    _build_db_url rt family host port user password database properties = Ok u
    /\ url_username u = user /\ url_password u = password
    /\ url_host u = host /\ url_port u = port /\ url_database u = database
    /\ (lower family = "mysql" \/ lower family = "doris" ->
        drivername u = "mysql+pymysql")
    /\ (lower family = "postgresql" -> drivername u = "postgresql+psycopg2")
    /\ (lower family = "oracle" -> drivername u = "oracle+oracledb")
    /\ (lower family = "mssql" -> drivername u = "mssql+pymssql").
Proof.
  unfold supported, supported_families, _build_db_url.
  intros [H | [H | [H | [H | [H | []]]]]]; rewrite <- H;
    eexists; (split; [reflexivity |]); cbn [url_username url_password
      url_host url_port url_database drivername];
    repeat (split; [solve [reflexivity | intros [E | E];
                            discriminate E || reflexivity
                          | intros E; discriminate E || reflexivity] |]);
    solve [reflexivity | intros E; discriminate E || reflexivity].
Qed.

Lemma build_db_url_descriptor_witness :
  exists u,
    _build_db_url Fixtures.crm_runtime "PostgreSQL" "db" 5432 "app" "secret"
      "shop" "" = Ok u
    /\ drivername u = "postgresql+psycopg2"
    /\ url_username u = "app"
    /\ url_host u = "db"
    /\ url_database u = "shop".
Proof.
  destruct (build_db_url_descriptor Fixtures.crm_runtime "PostgreSQL" "db"
              5432 "app" "secret" "shop" "")
    as [u [Hu [Hn [_ [Hh [_ [Hd [_ [Hp _]]]]]]]]].
  - unfold supported, supported_families. simpl. tauto.
  - exists u. split; [exact Hu |]. split; [now apply Hp |].
    split; [exact Hn |]. split; [exact Hh | exact Hd].
Defined.

Lemma supported_dec (family : string) : {supported family} + {~ supported family}.
Proof. apply in_dec, string_dec. Qed.

Lemma build_db_url_unsupported (rt : Runtime) (family host : string)
    (port : Z) (user password database properties : string) :
  ~ supported family ->
  _build_db_url rt family host port user password database properties
  = Raise (KeyError (lower family)).
Proof.
  unfold supported, supported_families. intros H. unfold _build_db_url.
  destruct (String.eqb_spec (lower family) "doris") as [E | _].
  - exfalso. apply H. rewrite E. simpl. tauto.
  - rewrite subscript_drivers_missing; [reflexivity |].
    intros Hin. apply H. simpl in *. tauto.
Qed.

(** X2. Construction succeeds exactly when the family is supported and the
    engine for its descriptor can be created; the extractor then holds that
    descriptor and engine, the user name, and the family as it was given.
    A failure to create the engine is the failure of construction. *)
Theorem init_succeeds_iff (rt : Runtime) (family host : string) (port : Z)
    (user password database properties : string) :
  (forall e,
     __init__ rt family host port user password database properties = Ok e
     <-> supported family
         /\ exists u srv,
              _build_db_url rt family host port user password database
                properties = Ok u
              /\ create_engine rt u = Ok srv
              /\ e = mkExtractor u srv family user)
  /\ (forall u x,
        _build_db_url rt family host port user password database properties
        = Ok u ->
        create_engine rt u = Raise x ->
        __init__ rt family host port user password database properties
        = Raise x).
Proof.
  split.
  - intros e. unfold __init__. split.
    + intros H. destruct (supported_dec family) as [Hs | Hn].
      * split; [exact Hs |].
        destruct (_build_db_url rt family host port user password database
                    properties) as [u |]; [| discriminate].
        cbn [bind] in H.
        destruct (create_engine rt u) as [srv |] eqn:Ec; [| discriminate].
        cbn [bind] in H. injection H as <-. now exists u, srv.
      * rewrite (build_db_url_unsupported rt family host port user password
                   database properties Hn) in H. discriminate.
    + intros [_ [u [srv [Hu [Hc ->]]]]]. rewrite Hu. cbn [bind].
      now rewrite Hc.
  - intros u x Hu Hc. unfold __init__. rewrite Hu. cbn [bind]. now rewrite Hc.
Qed.

Lemma init_succeeds_iff_witness :
  __init__ (mkRuntime (fun _ => [])
              (fun _ => Raise (SQLAlchemyError "connection refused")))
    "Oracle" "ora" 1521 "HR" "secret" "ORCL" ""
  = Raise (SQLAlchemyError "connection refused")
  /\ __init__ Fixtures.crm_runtime "MSSQL" "sql" 1433 "sa" "secret" "ledger" ""
     = Ok (mkExtractor
             (mkURL "mssql+pymssql" "sa" "secret" "sql" 1433 "ledger" None)
             Fixtures.crm_server "MSSQL" "sa").
Proof.
  split.
  - apply (proj2 (init_succeeds_iff _ "Oracle" "ora" 1521 "HR" "secret"
                    "ORCL" "")
             (mkURL "oracle+oracledb" "HR" "secret" "ora" 1521 "ORCL" None));
      reflexivity.
  - apply (proj1 (init_succeeds_iff Fixtures.crm_runtime "MSSQL" "sql" 1433
                    "sa" "secret" "ledger" "")).
    split.
    + unfold supported, supported_families. simpl. tauto.
    + eexists. eexists. repeat split.
Defined.

(* ------------------------------------------------------------------ *)
(** ** Further properties of the batch *)

Lemma fill_schemas_inv (self : DBSchemaExtractor) (targets : list string) :
  forall d d', fill_schemas self targets d = Ok d' ->
  forall t, In t targets -> exists s, _get_table_schema self t = Ok s.
Proof.
  induction targets as [| x r IH]; intros d d' H t Hin; [contradiction |].
  simpl in H. destruct (_get_table_schema self x) as [s |] eqn:Ex;
    [| discriminate].
  cbn [bind] in H. destruct Hin as [<- | Hin]; [now exists s |].
  exact (IH _ _ H t Hin).
Qed.

Lemma select_targets_incl (discovered : list string)
    (table_names : option string) (t : string) :
  In t (select_targets discovered table_names) -> In t discovered.
Proof.
  unfold select_targets. destruct table_names as [names |]; [| trivial].
  destruct (truthy names); [| trivial].
  rewrite filter_In. intros [_ H]. now apply contains_In.
Qed.

Lemma get_In_keys {V : Type} (d : dict V) (k : string) (v : V) :
  get d k = Some v -> In k (keys d).
Proof.
  induction d as [| [k' v'] d IH]; simpl; [discriminate |].
  destruct (String.eqb_spec k' k) as [-> | _]; [now left |].
  intros H. right. now apply IH.
Qed.

Lemma routine_table_name (self : DBSchemaExtractor) (t : string)
    (s : TableSchema) :
  _get_table_schema self t = Ok s \/ _get_doris_table_schema self t = Ok s
  \/ _get_oracle_table_schema self t = Ok s ->
  table_name s = t.
Proof.
  assert (Hd : _get_doris_table_schema self t = Ok s -> table_name s = t).
  { unfold _get_doris_table_schema. intros H.
    destruct (fetchone (engine self) _) as [r |]; [| discriminate].
    cbn [bind] in H.
    destruct (match r with Some ((_ :: _) as row) => getitem row 0
                         | _ => Ok (Some "") end); [| discriminate].
    cbn [bind] in H.
    destruct (fetchall (engine self) _) as [rows |]; [| discriminate].
    cbn [bind] in H.
    destruct (mapM column_of_row rows); [| discriminate].
    injection H as <-. reflexivity. }
  assert (Ho : _get_oracle_table_schema self t = Ok s -> table_name s = t).
  { unfold _get_oracle_table_schema. intros H.
    destruct (fetchone (engine self) _) as [r |]; [| discriminate].
    cbn [bind] in H.
    destruct (match r with Some ((_ :: _) as row) => getitem row 0
                         | _ => Ok (Some "") end); [| discriminate].
    cbn [bind] in H.
    destruct (fetchall (engine self) _) as [rows |]; [| discriminate].
    cbn [bind] in H.
    destruct (mapM column_of_row rows); [| discriminate].
    injection H as <-. reflexivity. }
  intros [H | [H | H]]; [| now apply Hd | now apply Ho].
  unfold _get_table_schema in H.
  destruct (String.eqb (db_type self) "oracle"); [now apply Ho |].
  destruct (String.eqb (db_type self) "doris"); [now apply Hd |].
  destruct (_get_table_comment self t); [| discriminate]. cbn [bind] in H.
  destruct (get_columns (engine self) t); [| discriminate].
  injection H as <-. reflexivity.
Qed.

(** What a successful batch was run on. *)
Lemma batch_inv (self : DBSchemaExtractor) (table_names : option string)
    (d : dict TableSchema) :
  get_all_tables_schema self table_names = Ok d ->
  exists discovered,
    discover self = Ok discovered
    /\ keys d = first_occurrences (select_targets discovered table_names)
    /\ (forall t, In t (select_targets discovered table_names) ->
          exists s, get d t = Some s /\ _get_table_schema self t = Ok s).
Proof.
  intros H. pose proof H as H0. unfold get_all_tables_schema in H0.
  destruct (discover self) as [discovered |] eqn:Ed; [| discriminate].
  cbn [bind] in H0. exists discovered. split; [reflexivity |].
  pose proof (fill_schemas_inv self _ _ _ H0) as Hall.
  destruct (batch_ok self table_names discovered Ed Hall)
    as [d' [Hrun [Hkeys Hvals]]].
  rewrite H in Hrun. injection Hrun as <-.
  split; [exact Hkeys |].
  intros t Ht. apply Hvals. rewrite Hkeys.
  now apply (proj2 (first_occurrences_In _ _)).
Qed.

(** X3. Whatever the filter, a returned map has distinct keys, every key is
    a discovered table, and every key is mapped to the description of that
    very table, whose table_name field is the key. *)
Theorem result_map_invariants (self : DBSchemaExtractor)
    (table_names : option string) (d : dict TableSchema) :
  get_all_tables_schema self table_names = Ok d ->
  NoDup (keys d)
  /\ (exists discovered,
        discover self = Ok discovered
        /\ forall k, In k (keys d) -> In k discovered)
  /\ (forall k s, get d k = Some s ->
        table_name s = k /\ _get_table_schema self k = Ok s).
Proof.
  intros H. destruct (batch_inv self table_names d H)
    as [discovered [Hdisc [Hkeys Hvals]]].
  split; [rewrite Hkeys; apply first_occurrences_NoDup |]. split.
  - exists discovered. split; [exact Hdisc |].
    intros k Hk. rewrite Hkeys in Hk.
    apply (proj1 (first_occurrences_In _ _)) in Hk.
    now apply select_targets_incl in Hk.
  - intros k s Hget.
    assert (Hk : In k (select_targets discovered table_names)).
    { apply (proj1 (first_occurrences_In _ _)). rewrite <- Hkeys.
      now apply get_In_keys in Hget. }
    destruct (Hvals k Hk) as [s' [Hget' Hs']].
    rewrite Hget in Hget'. injection Hget' as <-.
    split; [| exact Hs']. apply (routine_table_name self k s). now left.
Qed.

Lemma result_map_invariants_witness :
  exists d,
    get_all_tables_schema Fixtures.crm (Some "leads, leads ,accounts,tickets")
    = Ok d
    /\ keys d = ["leads"; "accounts"]
    /\ NoDup (keys d)
    /\ (forall k s, get d k = Some s -> table_name s = k).
Proof.
  destruct (get_all_tables_schema Fixtures.crm
              (Some "leads, leads ,accounts,tickets")) as [d |] eqn:E;
    [| discriminate].
  destruct (result_map_invariants Fixtures.crm _ d E) as [Hnd [_ Hv]].
  exists d. split; [reflexivity |]. split.
  - vm_compute in E. injection E as <-. reflexivity.
  - split; [exact Hnd |]. intros k s Hg. now apply Hv.
Defined.

(** X4. When the call without a filter succeeds, the call with any filter
    succeeds too, and what it returns is part of the unfiltered result:
    each of its keys is there, with the same description. *)
Theorem filtered_is_part_of_unfiltered (self : DBSchemaExtractor)
    (d_all : dict TableSchema) (names : string) :
  get_all_tables_schema self None = Ok d_all ->
  exists d,
    get_all_tables_schema self (Some names) = Ok d
    /\ forall k s, get d k = Some s -> get d_all k = Some s.
Proof.
  intros Hall.
  destruct (batch_inv self None d_all Hall) as [discovered [Hdisc [_ Hvals]]].
  cbn [select_targets] in Hvals.
  assert (Hok : forall t, In t (select_targets discovered (Some names)) ->
                  exists s, _get_table_schema self t = Ok s).
  { intros t Ht. apply select_targets_incl in Ht.
    destruct (Hvals t Ht) as [s [_ Hs]]. now exists s. }
  destruct (batch_ok self (Some names) discovered Hdisc Hok)
    as [d [Hrun [Hkeys Hv]]].
  exists d. split; [exact Hrun |].
  intros k s Hget.
  destruct (Hv k (get_In_keys d k s Hget)) as [s' [Hget' Hs']].
  rewrite Hget in Hget'. injection Hget' as <-.
  assert (Hk : In k discovered).
  { apply (select_targets_incl discovered (Some names)).
    apply (proj1 (first_occurrences_In _ _)). rewrite <- Hkeys.
    now apply get_In_keys in Hget. }
  destruct (Hvals k Hk) as [s2 [Hget2 Hs2]]. congruence.
Qed.

Lemma filtered_is_part_of_unfiltered_witness :
  exists d_all d,
    get_all_tables_schema Fixtures.crm None = Ok d_all
    /\ get_all_tables_schema Fixtures.crm (Some "leads,tickets") = Ok d
    /\ keys d_all = ["accounts"; "leads"]
    /\ keys d = ["leads"]
    /\ forall k s, get d k = Some s -> get d_all k = Some s.
Proof.
  destruct (get_all_tables_schema Fixtures.crm None) as [d_all |] eqn:E;
    [| discriminate].
  destruct (filtered_is_part_of_unfiltered Fixtures.crm d_all "leads,tickets" E)
    as [d [Hrun Hpart]].
  exists d_all, d. split; [reflexivity |]. split; [exact Hrun |].
  vm_compute in E. injection E as <-.
  vm_compute in Hrun. injection Hrun as <-.
  split; [reflexivity |]. split; [reflexivity | exact Hpart].
Defined.

(** X5. For the doris family the discovered tables are the first values of
    the rows of SHOW TABLES, in row order; catalog reflection is not
    consulted, so it may well fail. *)
Theorem doris_discovery (self : DBSchemaExtractor) (rows : list Row) :
  db_type self = "doris" ->
  fetchall (engine self) "SHOW TABLES;" = Ok rows ->
  Forall (fun row => exists name rest, row = Some name :: rest) rows ->
  discover self = Ok (map first_name rows).
Proof.
  intros Hfam Hrows Hnamed. unfold discover. rewrite Hfam, Hrows.
  cbn [String.eqb Ascii.eqb Bool.eqb bind]. clear Hrows.
  induction rows as [| row rows IH]; [reflexivity |].
  inversion Hnamed as [| ? ? [name [rest ->]] Hrest]; subst.
  cbn [mapM]. unfold first_column at 1. cbn [getitem nth_error bind].
  rewrite (IH Hrest). reflexivity.
Qed.

Lemma doris_discovery_witness :
  discover Fixtures.warehouse = Ok ["sales"]
  /\ get_table_names (engine Fixtures.warehouse)
     = Raise (SQLAlchemyError "reflection is not supported").
Proof.
  split; [| reflexivity].
  apply (doris_discovery Fixtures.warehouse [[Some "sales"]]).
  - reflexivity.
  - reflexivity.
  - constructor; [| constructor]. now exists "sales", [].
Defined.

(* ------------------------------------------------------------------ *)
(** ** Further properties of the comment lookup *)

(** X6. When the stored family is none of mysql, postgresql, mssql and
    doris, the comment lookup returns the table name and asks nothing of
    the database: the answer is the same on a server where every call
    fails. *)
Theorem comment_of_other_family (self : DBSchemaExtractor) (t : string) :
  ~ In (db_type self) ["mysql"; "postgresql"; "mssql"; "doris"] ->
  _get_table_comment self t = Ok t.
Proof.
  intros H. unfold _get_table_comment.
  destruct (String.eqb_spec (db_type self) "mysql") as [E | _];
    [exfalso; apply H; rewrite E; simpl; tauto |].
  destruct (String.eqb_spec (db_type self) "postgresql") as [E | _];
    [exfalso; apply H; rewrite E; simpl; tauto |].
  destruct (String.eqb_spec (db_type self) "mssql") as [E | _];
    [exfalso; apply H; rewrite E; simpl; tauto |].
  destruct (String.eqb_spec (db_type self) "doris") as [E | _];
    [exfalso; apply H; rewrite E; simpl; tauto |].
  reflexivity.
Qed.

Lemma comment_of_other_family_witness :
  _get_table_comment
    (mkExtractor Fixtures.hr_url Fixtures.down_server "oracle" "HR") "employees"
  = Ok "employees".
Proof.
  apply comment_of_other_family. simpl.
  intros [H | [H | [H | [H | []]]]]; discriminate.
Defined.

(** X7. A failing lookup is not turned into the fallback: on the generic
    path, and on the doris path, an error raised while fetching is the
    result of the comment lookup. *)
Theorem comment_lookup_error_propagates (self : DBSchemaExtractor)
    (t : string) (e : exn) :
  (In (db_type self) ["mysql"; "postgresql"; "mssql"] ->
   fetchone (engine self) (lookup_query (db_type self) t) = Raise e ->
   _get_table_comment self t = Raise e)
  /\ (db_type self = "doris" ->
      fetchone (engine self) (show_create_query t) = Raise e ->
      _get_table_comment self t = Raise e).
Proof.
  split.
  - intros Hfam Hr. rewrite (generic_comment_runs_lookup self t Hfam).
    unfold run_comment_query. now rewrite lookup_query_truthy, Hr.
  - intros Hfam Hr. unfold _get_table_comment. rewrite Hfam.
    cbn [String.eqb Ascii.eqb Bool.eqb].
    unfold _get_doris_create_statement. now rewrite Hr.
Qed.

Lemma comment_lookup_error_propagates_witness :
  _get_table_comment Fixtures.down_crm "accounts"
  = Raise (SQLAlchemyError "connection refused")
  /\ _get_table_comment Fixtures.down_warehouse "sales"
     = Raise (SQLAlchemyError "connection refused").
Proof.
  split.
  - apply (proj1 (comment_lookup_error_propagates Fixtures.down_crm
                    "accounts" _)); [left |]; reflexivity.
  - apply (proj2 (comment_lookup_error_propagates Fixtures.down_warehouse
                    "sales" _)); reflexivity.
Defined.

(** X8. On the generic path a comment that is returned is never empty,
    unless the table name itself is empty. *)
Theorem generic_comment_not_empty (self : DBSchemaExtractor) (t c : string) :
  In (db_type self) ["mysql"; "postgresql"; "mssql"] ->
  t <> "" ->
  _get_table_comment self t = Ok c ->
  c <> "".
Proof.
  intros Hfam Ht H. rewrite (generic_comment_runs_lookup self t Hfam) in H.
  destruct (fetchone (engine self) (lookup_query (db_type self) t))
    as [r |] eqn:Er.
  - rewrite (run_comment_query_ok self _ t r (lookup_query_truthy _ _) Er) in H.
    injection H as <-.
    destruct r as [[| [[| ch s] |] row] |]; try exact Ht. discriminate.
  - unfold run_comment_query in H.
    rewrite lookup_query_truthy, Er in H. discriminate.
Qed.

Lemma generic_comment_not_empty_witness :
  _get_table_comment Fixtures.crm "leads" = Ok "leads" /\ "leads" <> "".
Proof.
  split; [reflexivity |].
  apply (generic_comment_not_empty Fixtures.crm "leads" "leads").
  - left. reflexivity.
  - discriminate.
  - reflexivity.
Defined.

Lemma first_match_plain (s g : string) :
  first_match s g -> string_forallb plain g = true.
Proof. intros [pre [[kw [post [_ [_ Hg]]]] _]]. exact Hg. Qed.

(** X9. On the doris path a returned comment is the table name or a text
    with no quote and no newline in it: the capture stops at the first
    quote after the keyword. *)
Theorem doris_comment_is_plain (self : DBSchemaExtractor) (t c : string) :
  db_type self = "doris" ->
  _get_table_comment self t = Ok c ->
  c = t \/ string_forallb plain c = true.
Proof.
  intros Hfam H. unfold _get_table_comment in H. rewrite Hfam in H.
  cbn [String.eqb Ascii.eqb Bool.eqb] in H.
  destruct (_get_doris_create_statement self t) as [stmt |]; [| discriminate].
  cbn [bind] in H.
  destruct (re_search_comment stmt) as [g |] eqn:Eg; injection H as <-.
  - right. apply (first_match_plain stmt). now apply re_search_comment_some.
  - now left.
Qed.

Lemma doris_comment_is_plain_witness :
  _get_table_comment Fixtures.warehouse "sales" = Ok "Sales data"
  /\ ("Sales data" = "sales" \/ string_forallb plain "Sales data" = true).
Proof.
  split; [reflexivity |].
  apply (doris_comment_is_plain Fixtures.warehouse "sales" "Sales data");
    reflexivity.
Defined.

Lemma match_here_found (s g : string) :
  match_here s = Some g -> re_search_comment s = Some g.
Proof.
  intros H. destruct s as [| c s].
  - vm_compute in H. discriminate.
  - cbn [re_search_comment]. now rewrite H.
Qed.

(** X10. The keyword is matched in any letter case: a statement that
    begins with the keyword, an equals sign and a quote, however the
    letters are cased, yields the text up to the next quote. *)
Theorem comment_keyword_any_case (kw g post : string) :
  lower kw = "comment='" ->
  string_forallb plain g = true ->
  re_search_comment (kw ++ g ++ "'" ++ post) = Some g.
Proof.
  intros Hkw Hg. apply match_here_found, match_here_spec.
  exists kw, post. repeat split; assumption.
Qed.

Lemma comment_keyword_any_case_witness :
  re_search_comment "Comment='Daily totals' DISTRIBUTED BY HASH(`id`)"
  = Some "Daily totals".
Proof.
  apply (comment_keyword_any_case "Comment='" "Daily totals"
           " DISTRIBUTED BY HASH(`id`)"); reflexivity.
Defined.

(* ------------------------------------------------------------------ *)
(** ** Further properties of the extraction routines *)

Lemma column_of_row_ok (row : Row) :
  3 <= List.length row ->
  column_of_row row
  = Ok (mkColumn (value_at 0 row)
          (without_newlines (or_empty (value_at 2 row))) (value_at 1 row)).
Proof.
  destruct row as [| c0 [| c1 [| c2 row]]]; simpl; try lia.
  intros _. unfold column_of_row. cbn [getitem nth_error bind value_at nth].
  now rewrite replace_LF_spec.
Qed.

Lemma mapM_column_of_row_ok (rows : list Row) :
  Forall (fun row => 3 <= List.length row) rows ->
  mapM column_of_row rows
  = Ok (map (fun row =>
               mkColumn (value_at 0 row)
                 (without_newlines (or_empty (value_at 2 row)))
                 (value_at 1 row)) rows).
Proof.
  induction 1 as [| row rows Hrow _ IH]; [reflexivity |].
  cbn [mapM map]. rewrite (column_of_row_ok row Hrow), IH. reflexivity.
Qed.

(** X11. The doris routine succeeds whenever its two queries do and every
    column row has its three values.  The schema bears the table name; its
    comment is the first value of the table row (empty when there is no
    row); its columns are the rows, one for one and in order: name, type,
    and comment without newlines. *)
Theorem doris_schema_from_rows (self : DBSchemaExtractor) (t : string)
    (r : option Row) (rows : list Row) :
  fetchone (engine self)
    (doris_table_query (url_database (engine_url self)) t) = Ok r ->
  fetchall (engine self)
    (doris_col_query (url_database (engine_url self)) t) = Ok rows ->
  Forall (fun row => 3 <= List.length row) rows ->
  _get_doris_table_schema self t
  = Ok (mkSchema t
          (match r with Some (v :: _) => v | _ => Some "" end)
          (map (fun row =>
                  mkColumn (value_at 0 row)
                    (without_newlines (or_empty (value_at 2 row)))
                    (value_at 1 row)) rows)).
Proof.
  intros Hr Hrows Hlen. unfold _get_doris_table_schema.
  rewrite Hr. cbn [bind].
  destruct r as [[| v row] |]; cbn [getitem nth_error bind];
    rewrite Hrows; cbn [bind];
    rewrite (mapM_column_of_row_ok rows Hlen); reflexivity.
Qed.

Lemma doris_schema_from_rows_witness :
  _get_doris_table_schema Fixtures.warehouse "sales"
  = Ok (mkSchema "sales" None
          [ mkColumn (Some "id") "" (Some "INT");
            mkColumn (Some "day") "day ofthe sale" (Some "DATE") ]).
Proof.
  rewrite (doris_schema_from_rows Fixtures.warehouse "sales" (Some [None])
             [ [Some "id"; Some "INT"; None];
               [Some "day"; Some "DATE";
                Some ("day of" ++ NL ++ "the sale" ++ NL)] ]).
  - reflexivity.
  - reflexivity.
  - reflexivity.
  - repeat constructor.
Defined.

(** X12. The oracle routine succeeds whenever its two queries do and every
    column row has its three values.  The schema bears the table name as
    given (not uppercased); its comment is the first value of the catalog
    row (empty when there is no row); its columns are the rows, one for
    one and in order. *)
Theorem oracle_schema_from_rows (self : DBSchemaExtractor) (t : string)
    (r : option Row) (rows : list Row) :
  fetchone (engine self) (oracle_comment_query (username self) t) = Ok r ->
  fetchall (engine self) (oracle_columns_query (username self) t) = Ok rows ->
  Forall (fun row => 3 <= List.length row) rows ->
  _get_oracle_table_schema self t
  = Ok (mkSchema t
          (match r with Some (v :: _) => v | _ => Some "" end)
          (map (fun row =>
                  mkColumn (value_at 0 row)
                    (without_newlines (or_empty (value_at 2 row)))
                    (value_at 1 row)) rows)).
Proof.
  intros Hr Hrows Hlen. unfold _get_oracle_table_schema.
  rewrite Hr. cbn [bind].
  destruct r as [[| v row] |]; cbn [getitem nth_error bind];
    rewrite Hrows; cbn [bind];
    rewrite (mapM_column_of_row_ok rows Hlen); reflexivity.
Qed.

Lemma oracle_schema_from_rows_witness :
  _get_oracle_table_schema Fixtures.hr "employees"
  = Ok (mkSchema "employees" None
          [ mkColumn (Some "ID") "" (Some "NUMBER");
            mkColumn (Some "NAME") "fullname" (Some "VARCHAR2") ]).
Proof.
  rewrite (oracle_schema_from_rows Fixtures.hr "employees" (Some [None])
             [ [Some "ID"; Some "NUMBER"; None];
               [Some "NAME"; Some "VARCHAR2"; Some ("full" ++ NL ++ "name")] ]).
  - reflexivity.
  - reflexivity.
  - reflexivity.
  - repeat constructor.
Defined.

Lemma schema_columns_clean (self : DBSchemaExtractor) (t : string)
    (s : TableSchema) :
  _get_table_schema self t = Ok s ->
  Forall (fun c => no_newline (col_comment c)) (columns s).
Proof.
  intros H. pose proof H as H0. unfold _get_table_schema in H0.
  destruct (String.eqb_spec (db_type self) "oracle") as [_ | Ho].
  - destruct (oracle_schema_inv self t s H0) as [rows [_ Hmap]].
    apply (comments_clean _ (map (fun row => or_empty (third row)) rows)).
    now rewrite Hmap, map_map.
  - destruct (String.eqb_spec (db_type self) "doris") as [_ | Hd].
    + destruct (doris_schema_inv self t s H0) as [rows [_ Hmap]].
      apply (comments_clean _ (map (fun row => or_empty (third row)) rows)).
      now rewrite Hmap, map_map.
    + destruct (generic_schema_inv self t s Ho Hd H) as [c [cols [_ [_ ->]]]].
      apply (comments_clean _ (map (fun c => or_empty (rc_comment c)) cols)).
      cbn [columns]. rewrite !map_map. apply map_ext. intros rc.
      apply replace_LF_spec.
Qed.

(** X13. For the families of the generic path, every schema in a returned
    map carries a table comment that is a text, and a non-empty one unless
    the table name is empty. *)
Theorem generic_result_has_comments (self : DBSchemaExtractor)
    (table_names : option string) (d : dict TableSchema) :
  In (db_type self) ["mysql"; "postgresql"; "mssql"] ->
  get_all_tables_schema self table_names = Ok d ->
  forall k s, get d k = Some s -> k <> "" ->
  exists c, comment s = Some c /\ c <> "".
Proof.
  intros Hfam H k s Hget Hk.
  destruct (batch_inv self table_names d H) as [discovered [_ [Hkeys Hvals]]].
  assert (Hin : In k (select_targets discovered table_names)).
  { apply (proj1 (first_occurrences_In _ _)). rewrite <- Hkeys.
    now apply get_In_keys in Hget. }
  destruct (Hvals k Hin) as [s' [Hget' Hs]].
  rewrite Hget in Hget'. injection Hget' as <-.
  assert (Ho : db_type self <> "oracle")
    by (destruct Hfam as [E | [E | [E | []]]]; rewrite <- E; discriminate).
  assert (Hd : db_type self <> "doris")
    by (destruct Hfam as [E | [E | [E | []]]]; rewrite <- E; discriminate).
  destruct (generic_schema_inv self k s Ho Hd Hs) as [c [cols [Hc [_ ->]]]].
  exists c. split; [reflexivity |].
  (* the comment is the lookup's answer *)
  rewrite (generic_comment_runs_lookup self k Hfam) in Hc.
  destruct (fetchone (engine self) (lookup_query (db_type self) k))
    as [r |] eqn:Er.
  - rewrite (run_comment_query_ok self _ k r (lookup_query_truthy _ _) Er)
      in Hc.
    injection Hc as <-.
    destruct r as [[| [[| ch c0] |] row] |]; try exact Hk. discriminate.
  - unfold run_comment_query in Hc.
    rewrite lookup_query_truthy, Er in Hc. discriminate.
Qed.

Lemma generic_result_has_comments_witness :
  exists d,
    get_all_tables_schema Fixtures.crm None = Ok d
    /\ map (fun kv => comment (snd kv)) d
       = [Some "Customer accounts"; Some "leads"]
    /\ forall k s, get d k = Some s -> k <> "" ->
       exists c, comment s = Some c /\ c <> "".
Proof.
  destruct (get_all_tables_schema Fixtures.crm None) as [d |] eqn:E;
    [| discriminate].
  exists d. split; [reflexivity |]. split.
  - vm_compute in E. injection E as <-. reflexivity.
  - apply (generic_result_has_comments Fixtures.crm None d);
      [left; reflexivity | exact E].
Defined.

(** X14. Whatever the family and the filter, no column comment in a
    returned map holds a newline. *)
Theorem result_column_comments_clean (self : DBSchemaExtractor)
    (table_names : option string) (d : dict TableSchema) :
  get_all_tables_schema self table_names = Ok d ->
  forall k s, get d k = Some s ->
  Forall (fun c => no_newline (col_comment c)) (columns s).
Proof.
  intros H k s Hget.
  destruct (batch_inv self table_names d H) as [discovered [_ [Hkeys Hvals]]].
  assert (Hin : In k (select_targets discovered table_names)).
  { apply (proj1 (first_occurrences_In _ _)). rewrite <- Hkeys.
    now apply get_In_keys in Hget. }
  destruct (Hvals k Hin) as [s' [Hget' Hs]].
  rewrite Hget in Hget'. injection Hget' as <-.
  exact (schema_columns_clean self k s Hs).
Qed.

Lemma result_column_comments_clean_witness :
  exists d,
    get_all_tables_schema Fixtures.warehouse (Some "sales") = Ok d
    /\ forall k s, get d k = Some s ->
       Forall (fun c => no_newline (col_comment c)) (columns s).
Proof.
  destruct (get_all_tables_schema Fixtures.warehouse (Some "sales"))
    as [d |] eqn:E; [| discriminate].
  exists d. split; [reflexivity |].
  exact (result_column_comments_clean Fixtures.warehouse (Some "sales") d E).
Defined.

(** X15. Only the LF character is removed: on the generic path a column
    comment with no LF is returned as reflected (a carriage return stays),
    and an absent comment becomes the empty text. *)
Theorem clean_comment_is_kept (self : DBSchemaExtractor) (t : string)
    (s : TableSchema) (cols : list ReflectedColumn) :
  db_type self <> "oracle" -> db_type self <> "doris" ->
  _get_table_schema self t = Ok s ->
  get_columns (engine self) t = Ok cols ->
  Forall (fun rc => no_newline (or_empty (rc_comment rc))) cols ->
  map col_comment (columns s) = map (fun rc => or_empty (rc_comment rc)) cols.
Proof.
  intros Ho Hd H Hcols Hclean.
  destruct (generic_schema_inv self t s Ho Hd H) as [c [cols' [_ [Hc' ->]]]].
  rewrite Hcols in Hc'. injection Hc' as <-.
  cbn [columns]. rewrite map_map. clear H Hcols.
  induction Hclean as [| rc cols Hrc _ IH]; [reflexivity |].
  cbn [map]. rewrite IH. f_equal.
  cbn [column_of_reflected col_comment].
  rewrite replace_LF_spec. now apply without_newlines_id.
Qed.

Lemma clean_comment_is_kept_witness :
  exists s,
    _get_table_schema Fixtures.ledger "entries" = Ok s
    /\ map col_comment (columns s) = [""; "free" ++ Fixtures.CR ++ "text"].
Proof.
  destruct (_get_table_schema Fixtures.ledger "entries") as [s |] eqn:E;
    [| discriminate].
  exists s. split; [reflexivity |].
  rewrite (clean_comment_is_kept Fixtures.ledger "entries" s
             [ mkReflected "id" None "INTEGER";
               mkReflected "memo" (Some ("free" ++ Fixtures.CR ++ "text"))
                 "NVARCHAR(200)" ]).
  - reflexivity.
  - discriminate.
  - discriminate.
  - exact E.
  - reflexivity.
  - repeat constructor.
Defined.

Lemma absent_row_gives_empty_comment_witness :
  exists s,
    _get_oracle_table_schema Fixtures.hr "departments" = Ok s
    /\ comment s = Some "".
Proof.
  destruct (_get_oracle_table_schema Fixtures.hr "departments") as [s |] eqn:E;
    [| discriminate].
  exists s. split; [reflexivity |].
  apply (proj1 (absent_row_gives_empty_comment Fixtures.hr "departments" s));
    [exact E | reflexivity].
Defined.
